(** * Sentiment API: a shallow embedding of [app/sentiment.py],
      [app/models.py], [app/config.py] and [app/main.py].

    Conventions of the embedding.
    - A Python [str] is the list of its code points ([pystr]); [len] is
      [length].  Literals of the source are written [py "..."].
    - A Python [float] is an exact rational ([Q]): finite values, with the
      comparisons and the arithmetic of the source read exactly.
    - A Python [dict] is a [gmap]; [d.get(k, v)] is [default v (d !! k)].
    - Code that raises is a computation in a state-and-error monad over the
      process state [world]; state changes made before a [raise] persist,
      as they do in Python. *)

From Stdlib Require Import QArith Lqa.
From stdpp Require Import gmap strings list.

Local Open Scope N_scope.

(** ** Python strings *)

Definition pystr : Type := list N.

(** The code points of an ASCII literal of the source. *)
Definition py (s : string) : pystr :=
  map Ascii.N_of_ascii (String.list_ascii_of_string s).

Definition is_ascii (s : pystr) : bool := forallb (fun c => c <? 128) s.

Section Upper.

(** [str.upper()] maps every code point through Unicode's full upper-case
    mapping (one code point may become several) and concatenates.  The
    table is CPython's, not the repository's: its non-ASCII part is the
    parameter [to_upper_full]; on ASCII it is the usual shift of a-z. *)
Variable to_upper_full : N -> list N.

Definition upper_char (c : N) : list N :=
  if c <? 128
  then (if (97 <=? c) && (c <=? 122) then [c - 32] else [c])
  else to_upper_full c.

Definition upper (s : pystr) : pystr := concat (map upper_char s).

(** [label_map] of [SentimentAnalyzer.analyze]. *)
Definition label_map : gmap pystr pystr :=
  <[py "POSITIVE" := py "positive"]>
  (<[py "NEGATIVE" := py "negative"]>
  (<[py "NEUTRAL" := py "neutral"]> ∅)).

(** [dict.get(key, default)] *)
Definition dict_get {V} (d : gmap pystr V) (key : pystr) (dflt : V) : V :=
  default dflt (d !! key).

(** [label_map.get(result["label"].upper(), "neutral")] *)
Definition map_label (raw_label : pystr) : pystr :=
  dict_get label_map (upper raw_label) (py "neutral").

End Upper.

(** Two code points that differ at most by ASCII letter case. *)
Definition ascii_caseless_char (c w : N) : bool :=
  (c =? w) || ((97 <=? c) && (c <=? 122) && (c - 32 =? w)).

(** [s] is the upper-case ASCII word [w] up to letter case, code point by
    code point and over its whole length. *)
Fixpoint ascii_caseless (s w : pystr) : bool :=
  match s, w with
  | [], [] => true
  | c :: s', x :: w' => ascii_caseless_char c x && ascii_caseless s' w'
  | _, _ => false
  end.

Definition is_upper_word (w : pystr) : bool :=
  forallb (fun c => (65 <=? c) && (c <=? 90)) w.

Local Close Scope N_scope.

(** ** Exceptions *)

(** A Python exception, as far as the code looks at it:
    [type(e).__name__] and [str(e)]. *)
Record exn := { exn_type : pystr; exn_str : pystr }.

(** [fastapi.HTTPException(status_code, detail)] *)
Record HTTPException := { status_code : nat; detail : pystr }.

(** ** app/config.py *)

Record Settings := {
  app_name : pystr;
  app_version : pystr;
  debug : bool;
  model_name : pystr;
  max_length : Z;
  cost_per_inference_usd : Q;
  host : pystr;
  port : Z
}.

(** The defaults of the class; the environment may override any of them. *)
Definition default_settings : Settings := {|
  app_name := py "Sentiment API";
  app_version := py "1.0.0";
  debug := false;
  model_name := py "distilbert-base-uncased-finetuned-sst-2-english";
  max_length := 512;
  cost_per_inference_usd := 1 # 10000;
  host := py "0.0.0.0";
  port := 8000
|}.

(** ** app/models.py *)

(** One entry of a pydantic [ValidationError]: the field and the kind of
    the failed constraint. *)
Inductive constraint :=
| string_too_short | string_too_long | literal_error
| greater_than_equal | less_than_equal.

Definition field_errors : Type := list (string * constraint).

(** [Field(ge=lo)] and [Field(le=hi)] on a float. *)
Definition ge (lo v : Q) : bool := Qle_bool lo v.
Definition le (hi v : Q) : bool := Qle_bool v hi.

(** The interval the two bounds of [confidence] describe. *)
Definition in_unit_interval (q : Q) : Prop := (0 <= q /\ q <= 1)%Q.

(** The errors a model reports are those of its fields, in field order;
    the instance exists when there is none. *)
Definition check (ok : bool) (field : string) (c : constraint) : field_errors :=
  if ok then [] else [(field, c)].

Module AnalyzeRequest.

Record t := { text : pystr }.

Definition min_length : nat := 1.
Definition max_length : nat := 5000.

(** [text: str = Field(..., min_length=1, max_length=5000)] *)
Definition errors (text : pystr) : field_errors :=
  check (min_length <=? length text)%nat "text" string_too_short ++
  check (length text <=? max_length)%nat "text" string_too_long.

Definition validate (text : pystr) : field_errors + t :=
  match errors text with
  | [] => inr {| text := text |}
  | errs => inl errs
  end.

End AnalyzeRequest.

Module AnalyzeResponse.

Record t := {
  text : pystr;
  sentiment : pystr;
  confidence : Q;
  processing_time_ms : Q;
  model_version : pystr;
  timestamp : Z;
  cost_estimate_usd : Q
}.

(** [Literal["positive", "negative", "neutral"]] *)
Definition sentiment_literal : list pystr :=
  [py "positive"; py "negative"; py "neutral"].

Definition errors (r : t) : field_errors :=
  check (bool_decide (sentiment r ∈ sentiment_literal))
        "sentiment" literal_error ++
  check (ge 0 (confidence r)) "confidence" greater_than_equal ++
  check (le 1 (confidence r)) "confidence" less_than_equal.

(** The constructor call [AnalyzeResponse(text=..., ...)]. *)
Definition validate (r : t) : field_errors + t :=
  match errors r with
  | [] => inr r
  | errs => inl errs
  end.

End AnalyzeResponse.

Module HealthResponse.

Record t := { status : pystr; version : pystr; model_loaded : bool }.

End HealthResponse.

(** ** The process state *)

(** What the classification capability returns for one text: the
    dictionaries [{"label": ..., "score": ...}]. *)
Record prediction := { label : pystr; score : Q }.

(** The callable that [transformers.pipeline] returns. *)
Definition classifier : Type := pystr -> exn + list prediction.

(** An instance of [SentimentAnalyzer]; [oid] is its identity ([id(self)]). *)
Record SentimentAnalyzer := {
  oid : nat;
  model : classifier;
  model_version : pystr
}.

(** The calls made on the two loggers, in order. *)
Inductive log_record :=
| loading_sentiment_model (name : pystr)
| sentiment_model_loaded
| failed_to_load_model (e : exn)
| analysis_complete (sentiment : pystr) (confidence time_ms : Q)
| analysis_failed_after (time_ms : Q) (e : exn)
| initializing_analyzer
| application_starting (version model : pystr)
| application_ready (version : pystr)
| application_startup_failed (error : pystr)
| health_check_failed (error : pystr)
| sentiment_analyzed (sentiment : pystr) (confidence time_ms : Q)
                     (text_length : nat) (cost_usd : Q)
| analysis_failed (error error_type : pystr) (text_length : nat).

(** The module globals ([_analyzer], the three Prometheus metrics), the
    log, and what the process has done to its collaborators so far: the
    objects it allocated, its calls of [pipeline], of [analyze] and of the
    classifier, and its readings of the two clocks. *)
Record world := {
  _analyzer : option SentimentAnalyzer;
  requests_total : gmap (pystr * pystr) nat;
  predictions_total : gmap pystr nat;
  request_duration : gmap pystr nat;
  log : list log_record;
  next_oid : nat;
  pipeline_calls : nat;
  analyze_calls : list pystr;
  model_calls : list (nat * pystr);
  clock_reads : nat;
  utc_reads : nat
}.

(** The state of a process that has just imported the modules. *)
Definition initial_world : world := {|
  _analyzer := None;
  requests_total := ∅;
  predictions_total := ∅;
  request_duration := ∅;
  log := [];
  next_oid := 0;
  pipeline_calls := 0;
  analyze_calls := [];
  model_calls := [];
  clock_reads := 0;
  utc_reads := 0
|}.

Definition set_analyzer (a : option SentimentAnalyzer) (w : world) : world :=
  {| _analyzer := a;
     requests_total := requests_total w;
     predictions_total := predictions_total w;
     request_duration := request_duration w;
     log := log w; next_oid := next_oid w;
     pipeline_calls := pipeline_calls w;
     analyze_calls := analyze_calls w; model_calls := model_calls w;
     clock_reads := clock_reads w; utc_reads := utc_reads w |}.

Definition set_requests_total (m : gmap (pystr * pystr) nat) (w : world) : world :=
  {| _analyzer := _analyzer w;
     requests_total := m;
     predictions_total := predictions_total w;
     request_duration := request_duration w;
     log := log w; next_oid := next_oid w;
     pipeline_calls := pipeline_calls w;
     analyze_calls := analyze_calls w; model_calls := model_calls w;
     clock_reads := clock_reads w; utc_reads := utc_reads w |}.

Definition set_predictions_total (m : gmap pystr nat) (w : world) : world :=
  {| _analyzer := _analyzer w;
     requests_total := requests_total w;
     predictions_total := m;
     request_duration := request_duration w;
     log := log w; next_oid := next_oid w;
     pipeline_calls := pipeline_calls w;
     analyze_calls := analyze_calls w; model_calls := model_calls w;
     clock_reads := clock_reads w; utc_reads := utc_reads w |}.

Definition set_request_duration (m : gmap pystr nat) (w : world) : world :=
  {| _analyzer := _analyzer w;
     requests_total := requests_total w;
     predictions_total := predictions_total w;
     request_duration := m;
     log := log w; next_oid := next_oid w;
     pipeline_calls := pipeline_calls w;
     analyze_calls := analyze_calls w; model_calls := model_calls w;
     clock_reads := clock_reads w; utc_reads := utc_reads w |}.

Definition set_log (l : list log_record) (w : world) : world :=
  {| _analyzer := _analyzer w;
     requests_total := requests_total w;
     predictions_total := predictions_total w;
     request_duration := request_duration w;
     log := l; next_oid := next_oid w;
     pipeline_calls := pipeline_calls w;
     analyze_calls := analyze_calls w; model_calls := model_calls w;
     clock_reads := clock_reads w; utc_reads := utc_reads w |}.

Definition set_next_oid (n : nat) (w : world) : world :=
  {| _analyzer := _analyzer w;
     requests_total := requests_total w;
     predictions_total := predictions_total w;
     request_duration := request_duration w;
     log := log w; next_oid := n;
     pipeline_calls := pipeline_calls w;
     analyze_calls := analyze_calls w; model_calls := model_calls w;
     clock_reads := clock_reads w; utc_reads := utc_reads w |}.

Definition set_pipeline_calls (n : nat) (w : world) : world :=
  {| _analyzer := _analyzer w;
     requests_total := requests_total w;
     predictions_total := predictions_total w;
     request_duration := request_duration w;
     log := log w; next_oid := next_oid w;
     pipeline_calls := n;
     analyze_calls := analyze_calls w; model_calls := model_calls w;
     clock_reads := clock_reads w; utc_reads := utc_reads w |}.

Definition set_analyze_calls (l : list pystr) (w : world) : world :=
  {| _analyzer := _analyzer w;
     requests_total := requests_total w;
     predictions_total := predictions_total w;
     request_duration := request_duration w;
     log := log w; next_oid := next_oid w;
     pipeline_calls := pipeline_calls w;
     analyze_calls := l; model_calls := model_calls w;
     clock_reads := clock_reads w; utc_reads := utc_reads w |}.

Definition set_model_calls (l : list (nat * pystr)) (w : world) : world :=
  {| _analyzer := _analyzer w;
     requests_total := requests_total w;
     predictions_total := predictions_total w;
     request_duration := request_duration w;
     log := log w; next_oid := next_oid w;
     pipeline_calls := pipeline_calls w;
     analyze_calls := analyze_calls w; model_calls := l;
     clock_reads := clock_reads w; utc_reads := utc_reads w |}.

Definition set_clock_reads (n : nat) (w : world) : world :=
  {| _analyzer := _analyzer w;
     requests_total := requests_total w;
     predictions_total := predictions_total w;
     request_duration := request_duration w;
     log := log w; next_oid := next_oid w;
     pipeline_calls := pipeline_calls w;
     analyze_calls := analyze_calls w; model_calls := model_calls w;
     clock_reads := n; utc_reads := utc_reads w |}.

Definition set_utc_reads (n : nat) (w : world) : world :=
  {| _analyzer := _analyzer w;
     requests_total := requests_total w;
     predictions_total := predictions_total w;
     request_duration := request_duration w;
     log := log w; next_oid := next_oid w;
     pipeline_calls := pipeline_calls w;
     analyze_calls := analyze_calls w; model_calls := model_calls w;
     clock_reads := clock_reads w; utc_reads := n |}.

(** [counter.labels(...).inc()] and [histogram.labels(...).observe(_)]:
    one more event under the label values [k]. *)
Definition inc `{Countable K} (k : K) (m : gmap K nat) : gmap K nat :=
  <[k := S (default 0 (m !! k))]> m.

(** The value of a labelled counter; a child never touched reads 0. *)
Definition value `{Countable K} (m : gmap K nat) (k : K) : nat :=
  default 0 (m !! k).

(** ** The state-and-error monad *)

Section Monad.

(** A computation over the process state that returns an [A] or raises
    an [E]; the state reached is kept in both cases. *)
Definition M (E A : Type) : Type := world -> (E + A) * world.

Definition ret {E A} (a : A) : M E A := fun w => (inr a, w).

Definition raise {E A} (e : E) : M E A := fun w => (inl e, w).

Definition bind {E A B} (c : M E A) (k : A -> M E B) : M E B :=
  fun w =>
    match c w with
    | (inr a, w') => k a w'
    | (inl e, w') => (inl e, w')
    end.

(** [try: c  except Exception as e: h e] *)
Definition try_except {E E' A} (c : M E A) (h : E -> M E' A) : M E' A :=
  fun w =>
    match c w with
    | (inr a, w') => (inr a, w')
    | (inl e, w') => h e w'
    end.

(** [with cm: c], for a context manager whose [__exit__] runs [exit] and
    does not swallow the exception. *)
Definition with_exit {E A} (c : M E A) (exit : world -> world) : M E A :=
  fun w => let '(r, w') := c w in (r, exit w').

Definition gets {E A} (f : world -> A) : M E A := fun w => (inr (f w), w).

Definition modify {E} (f : world -> world) : M E unit := fun w => (inr tt, f w).

End Monad.

Notation "'let!' x ':=' c 'in' k" := (bind c (fun x => k))
  (at level 10, x name, c at level 100, k at level 200).
Notation "'run!' c 'in' k" := (bind c (fun _ => k))
  (at level 10, c at level 100, k at level 200).

(** ** HTTP responses *)

Inductive json :=
| analyze_json (r : AnalyzeResponse.t)
| health_json (h : HealthResponse.t)
| detail_json (detail : pystr)
| validation_json (errs : field_errors).

Record response := { status : nat; body : json }.

(** What FastAPI sends for a handler's outcome: the returned model with
    200, or the status and [{"detail": ...}] of the [HTTPException]. *)
Definition respond {A} (to_json : A -> json) (r : HTTPException + A) : response :=
  match r with
  | inr a => {| status := 200; body := to_json a |}
  | inl e => {| status := status_code e; body := detail_json (detail e) |}
  end.

(** What [analyze] returns: the dictionary with these three keys. *)
Record analysis := {
  sentiment : pystr;
  confidence : Q;
  processing_time_ms : Q
}.

Section Service.

(** The collaborators of the process.  [pipeline n] is the outcome of its
    [n]-th call of [transformers.pipeline] (the arguments are the same
    settings every time), [clock n] the [n]-th reading of [time.time()],
    [utcnow n] the [n]-th reading of [datetime.utcnow()], and
    [validation_error_str] pydantic's rendering of a [ValidationError]. *)
Variable to_upper_full : N -> list N.
Variable settings : Settings.
Variable pipeline : nat -> exn + classifier.
Variable clock : nat -> Q.
Variable utcnow : nat -> Z.
Variable validation_error_str : field_errors -> pystr.

Definition logger {E} (r : log_record) : M E unit :=
  modify (fun w => set_log (log w ++ [r]) w).

Definition time_time {E} : M E Q :=
  fun w => (inr (clock (clock_reads w)), set_clock_reads (S (clock_reads w)) w).

Definition datetime_utcnow {E} : M E Z :=
  fun w => (inr (utcnow (utc_reads w)), set_utc_reads (S (utc_reads w)) w).

(** *** app/sentiment.py *)

Definition call_pipeline : M exn classifier :=
  fun w => (pipeline (pipeline_calls w),
            set_pipeline_calls (S (pipeline_calls w)) w).

(** [SentimentAnalyzer()]: a fresh object, then [__init__]. *)
Definition SentimentAnalyzer_init : M exn SentimentAnalyzer :=
  let! self := gets next_oid in
  run! modify (fun w => set_next_oid (S (next_oid w)) w) in
  run! logger (loading_sentiment_model (model_name settings)) in
  try_except
    (let! m := call_pipeline in
     run! logger sentiment_model_loaded in
     ret {| oid := self; model := m; model_version := model_name settings |})
    (fun e =>
       run! logger (failed_to_load_model e) in
       raise e).

(** [self.model(text)[0]] *)
Definition IndexError : exn :=
  {| exn_type := py "IndexError"; exn_str := py "list index out of range" |}.

Definition call_model (self : SentimentAnalyzer) (text : pystr) : M exn prediction :=
  fun w =>
    let w' := set_model_calls (model_calls w ++ [(oid self, text)]) w in
    match model self text with
    | inl e => (inl e, w')
    | inr [] => (inl IndexError, w')
    | inr (result :: _) => (inr result, w')
    end.

Definition analyze (self : SentimentAnalyzer) (text : pystr) : M exn analysis :=
  run! modify (fun w => set_analyze_calls (analyze_calls w ++ [text]) w) in
  let! start_time := time_time in
  try_except
    (let! result := call_model self text in
     let sentiment := map_label to_upper_full (label result) in
     let confidence := score result in
     let! now := time_time in
     let processing_time_ms := ((now - start_time) * 1000)%Q in
     run! logger (analysis_complete sentiment confidence processing_time_ms) in
     ret {| sentiment := sentiment;
            confidence := confidence;
            processing_time_ms := processing_time_ms |})
    (fun e =>
       let! now := time_time in
       let processing_time_ms := ((now - start_time) * 1000)%Q in
       run! logger (analysis_failed_after processing_time_ms e) in
       raise e).

(** The value returned is whatever the global holds at the [return]. *)
Definition get_analyzer : M exn (option SentimentAnalyzer) :=
  let! cached := gets _analyzer in
  run! (match cached with
        | None =>
            run! logger initializing_analyzer in
            let! a := SentimentAnalyzer_init in
            modify (set_analyzer (Some a))
        | Some _ => ret tt
        end) in
  gets _analyzer.

(** *** app/main.py *)

Definition AttributeError (attr : string) : exn :=
  {| exn_type := py "AttributeError";
     exn_str := py "'NoneType' object has no attribute '" ++ py attr ++ py "'" |}.

(** Attribute access on the value [get_analyzer] returned. *)
Definition attr {A} (name : string) (o : option SentimentAnalyzer)
    (k : SentimentAnalyzer -> M exn A) : M exn A :=
  match o with
  | Some a => k a
  | None => raise (AttributeError name)
  end.

Definition ValidationError (errs : field_errors) : exn :=
  {| exn_type := py "ValidationError"; exn_str := validation_error_str errs |}.

Definition new_AnalyzeResponse (r : AnalyzeResponse.t) : M exn AnalyzeResponse.t :=
  match AnalyzeResponse.validate r with
  | inr r => ret r
  | inl errs => raise (ValidationError errs)
  end.

Definition startup_event : M exn unit :=
  run! logger (application_starting (app_version settings) (model_name settings)) in
  try_except
    (let! analyzer := get_analyzer in
     let! version := attr "model_version" analyzer (fun a => ret (model_version a)) in
     logger (application_ready version))
    (fun e =>
       run! logger (application_startup_failed (exn_str e)) in
       raise e).

Definition health_check : M HTTPException HealthResponse.t :=
  try_except
    (let! analyzer := get_analyzer in
     let model_loaded := bool_decide (analyzer <> None) in
     run! modify (fun w =>
            set_requests_total
              (inc (py "/health", py "success") (requests_total w)) w) in
     ret {| HealthResponse.status := py "healthy";
            HealthResponse.version := app_version settings;
            HealthResponse.model_loaded := model_loaded |})
    (fun e =>
       run! modify (fun w =>
              set_requests_total
                (inc (py "/health", py "error") (requests_total w)) w) in
       run! logger (health_check_failed (exn_str e)) in
       raise {| status_code := 503; detail := py "Service unhealthy" |}).

Definition analyze_sentiment (request : AnalyzeRequest.t)
    : M HTTPException AnalyzeResponse.t :=
  let text := AnalyzeRequest.text request in
  try_except
    (with_exit
       (let! analyzer := get_analyzer in
        let! result := attr "analyze" analyzer (fun a => analyze a text) in
        let! version := attr "model_version" analyzer
                          (fun a => ret (model_version a)) in
        let! now := datetime_utcnow in
        let! response :=
          new_AnalyzeResponse
            {| AnalyzeResponse.text := text;
               AnalyzeResponse.sentiment := sentiment result;
               AnalyzeResponse.confidence := confidence result;
               AnalyzeResponse.processing_time_ms := processing_time_ms result;
               AnalyzeResponse.model_version := version;
               AnalyzeResponse.timestamp := now;
               AnalyzeResponse.cost_estimate_usd :=
                 cost_per_inference_usd settings |} in
        run! logger (sentiment_analyzed
                       (AnalyzeResponse.sentiment response)
                       (AnalyzeResponse.confidence response)
                       (AnalyzeResponse.processing_time_ms response)
                       (length text)
                       (AnalyzeResponse.cost_estimate_usd response)) in
        run! modify (fun w =>
               set_requests_total
                 (inc (py "/analyze", py "success") (requests_total w)) w) in
        run! modify (fun w =>
               set_predictions_total
                 (inc (AnalyzeResponse.sentiment response)
                      (predictions_total w)) w) in
        ret response)
       (fun w =>
          set_request_duration (inc (py "/analyze") (request_duration w)) w))
    (fun e =>
       run! modify (fun w =>
              set_requests_total
                (inc (py "/analyze", py "error") (requests_total w)) w) in
       run! logger (analysis_failed (exn_str e) (exn_type e)
                      (if bool_decide (text <> []) then length text else 0%nat)) in
       raise {| status_code := 500;
                detail := py "Analysis failed: " ++ exn_str e |}).

(** *** The routes, as FastAPI serves them *)

Definition GET_health (w : world) : response * world :=
  let '(r, w') := health_check w in (respond health_json r, w').

(** The body is validated against [AnalyzeRequest] first; the handler
    runs only on an instance. *)
Definition POST_analyze (text : pystr) (w : world) : response * world :=
  match AnalyzeRequest.validate text with
  | inl errs => ({| status := 422; body := validation_json errs |}, w)
  | inr request =>
      let '(r, w') := analyze_sentiment request w in
      (respond analyze_json r, w')
  end.

(** [n] calls of [get_analyzer()] one after the other: the outcome of
    each call with the state it left. *)
Fixpoint calls (n : nat) (w : world)
    : list ((exn + option SentimentAnalyzer) * world) :=
  match n with
  | O => []
  | S n' => let rw := get_analyzer w in rw :: calls n' (snd rw)
  end.

(** The states in which a call of [get_analyzer] that found the cache
    empty leaves the process: after the attempt to load the model, and
    then after its success or its failure. *)
Definition attempted (w : world) : world :=
  let w1 := set_log (log w ++ [initializing_analyzer]) w in
  let w2 := set_next_oid (S (next_oid w1)) w1 in
  let w3 := set_log (log w2 ++ [loading_sentiment_model (model_name settings)]) w2 in
  set_pipeline_calls (S (pipeline_calls w3)) w3.

Definition new_analyzer (m : classifier) (w : world) : SentimentAnalyzer :=
  {| oid := next_oid w; model := m; model_version := model_name settings |}.

Definition loaded (m : classifier) (w : world) : world :=
  let w4 := attempted w in
  set_analyzer (Some (new_analyzer m w))
    (set_log (log w4 ++ [sentiment_model_loaded]) w4).

Definition load_failed (e : exn) (w : world) : world :=
  let w4 := attempted w in
  set_log (log w4 ++ [failed_to_load_model e]) w4.

(** The states a call of [analyze] goes through: entered (call recorded,
    start time read), classifier called, end time read, outcome logged;
    and the time it computes from the two readings. *)
Definition entered (text : pystr) (w : world) : world :=
  let w1 := set_analyze_calls (analyze_calls w ++ [text]) w in
  set_clock_reads (S (clock_reads w1)) w1.

Definition classified (self : SentimentAnalyzer) (text : pystr) (w : world) : world :=
  let w2 := entered text w in
  set_model_calls (model_calls w2 ++ [(oid self, text)]) w2.

Definition timed (self : SentimentAnalyzer) (text : pystr) (w : world) : world :=
  let w3 := classified self text w in
  set_clock_reads (S (clock_reads w3)) w3.

Definition analysis_logged (r : log_record) (self : SentimentAnalyzer)
    (text : pystr) (w : world) : world :=
  let w4 := timed self text w in
  set_log (log w4 ++ [r]) w4.

Definition elapsed_ms (w : world) : Q :=
  ((clock (S (clock_reads w)) - clock (clock_reads w)) * 1000)%Q.

(** The states the handler of [/analyze] reaches: the duration observed
    on leaving the [with] block, the success recorded, the failure
    recorded. *)
Definition observed (w : world) : world :=
  set_request_duration (inc (py "/analyze") (request_duration w)) w.

Definition succeeded (r : AnalyzeResponse.t) (text : pystr) (w : world) : world :=
  let w1 := set_log (log w ++ [sentiment_analyzed
                                 (AnalyzeResponse.sentiment r)
                                 (AnalyzeResponse.confidence r)
                                 (AnalyzeResponse.processing_time_ms r)
                                 (length text)
                                 (AnalyzeResponse.cost_estimate_usd r)]) w in
  let w2 := set_requests_total
              (inc (py "/analyze", py "success") (requests_total w1)) w1 in
  set_predictions_total
    (inc (AnalyzeResponse.sentiment r) (predictions_total w2)) w2.

Definition failed (e : exn) (text : pystr) (w : world) : world :=
  let w1 := set_requests_total
              (inc (py "/analyze", py "error") (requests_total w)) w in
  set_log (log w1 ++ [analysis_failed (exn_str e) (exn_type e)
                        (if bool_decide (text <> []) then length text else 0%nat)]) w1.

(** The response the handler builds from a result of [analyze]. *)
Definition response_of (text : pystr) (self : SentimentAnalyzer)
    (res : analysis) (w : world) : AnalyzeResponse.t :=
  {| AnalyzeResponse.text := text;
     AnalyzeResponse.sentiment := sentiment res;
     AnalyzeResponse.confidence := confidence res;
     AnalyzeResponse.processing_time_ms := processing_time_ms res;
     AnalyzeResponse.model_version := model_version self;
     AnalyzeResponse.timestamp := utcnow (utc_reads w);
     AnalyzeResponse.cost_estimate_usd := cost_per_inference_usd settings |}.

Definition analysis_failure (e : exn) : HTTPException :=
  {| status_code := 500; detail := py "Analysis failed: " ++ exn_str e |}.

(** *** Callers of [get_analyzer] that overlap

    The function takes no lock, so between two of its steps another
    caller may run.  A caller is at one of these points of the body. *)
Inductive caller :=
| at_test                             (* [if _analyzer is None:] *)
| at_construct                        (* [SentimentAnalyzer()] *)
| at_assign (a : SentimentAnalyzer)   (* [_analyzer = ...] *)
| at_return                           (* [return _analyzer] *)
| returned (r : option SentimentAnalyzer)
| raised (e : exn).

(** One step of one caller. *)
Definition caller_step (c : caller) (w : world) : caller * world :=
  match c with
  | at_test =>
      match _analyzer w with
      | None => (at_construct, set_log (log w ++ [initializing_analyzer]) w)
      | Some _ => (at_return, w)
      end
  | at_construct =>
      match SentimentAnalyzer_init w with
      | (inr a, w') => (at_assign a, w')
      | (inl e, w') => (raised e, w')
      end
  | at_assign a => (at_return, set_analyzer (Some a) w)
  | at_return => (returned (_analyzer w), w)
  | returned r => (returned r, w)
  | raised e => (raised e, w)
  end.

(** The callers in flight and the state they share; [step i] lets caller
    [i] take its next step. *)
Definition step (i : nat) (cfg : list caller * world) : list caller * world :=
  match fst cfg !! i with
  | Some c => let '(c', w') := caller_step c (snd cfg) in (<[i := c']> (fst cfg), w')
  | None => cfg
  end.

(** A schedule is the order in which the callers take their steps. *)
Definition run (schedule : list nat) (cfg : list caller * world)
    : list caller * world :=
  fold_left (fun cfg i => step i cfg) schedule cfg.

(** No overlap: caller [first] runs its four steps, then the next one,
    for [n] callers. *)
Fixpoint serial (first n : nat) : list nat :=
  match n with
  | O => []
  | S n' => replicate 4 first ++ serial (S first) n'
  end.

(** The state after [n] calls one after the other. *)
Fixpoint after_calls (n : nat) (w : world) : world :=
  match n with
  | O => w
  | S n' => after_calls n' (snd (get_analyzer w))
  end.

(** How a finished call of [get_analyzer] shows as a caller. *)
Definition finished (r : exn + option SentimentAnalyzer) : caller :=
  match r with
  | inr v => returned v
  | inl e => raised e
  end.

End Service.

(** The identity of the instance a caller got. *)
Definition returned_oid (c : caller) : option nat :=
  match c with
  | returned (Some a) => Some (oid a)
  | _ => None
  end.

(** A caller that found, or will find, the instance [a] in the cache. *)
Definition served (a : SentimentAnalyzer) (c : caller) : Prop :=
  c = at_test \/ c = at_return \/ c = returned (Some a).

(** The analyzers whose construction completed, by the log. *)
Definition is_model_loaded (r : log_record) : bool :=
  match r with sentiment_model_loaded => true | _ => false end.

Definition constructions (w : world) : nat :=
  length (List.filter is_model_loaded (log w)).

(** ** The process as a whole *)

(** The requests of the two routes that reach the analyzer. *)
Inductive request :=
| health_request
| analyze_request (text : pystr).

Section Process.

Variable to_upper_full : N -> list N.
Variable settings : Settings.
Variable pipeline : nat -> exn + classifier.
Variable clock : nat -> Q.
Variable utcnow : nat -> Z.
Variable validation_error_str : field_errors -> pystr.

Definition serve (r : request) (w : world) : response * world :=
  match r with
  | health_request => GET_health settings pipeline w
  | analyze_request text =>
      POST_analyze to_upper_full settings pipeline clock utcnow
        validation_error_str text w
  end.

(** A run of requests: the answers in order, and the state left. *)
Fixpoint serve_all (rs : list request) (w : world) : list response * world :=
  match rs with
  | [] => ([], w)
  | r :: rs' =>
      let '(resp, w1) := serve r w in
      let '(resps, w2) := serve_all rs' w1 in
      (resp :: resps, w2)
  end.

(** The states of a process: the one after the import of the modules, and
    those the startup hook and the requests lead to from there. *)
Inductive reachable : world -> Prop :=
| after_import : reachable initial_world
| after_startup (w : world) :
    reachable w -> reachable (snd (startup_event settings pipeline w))
| after_request (r : request) (w : world) :
    reachable w -> reachable (snd (serve r w)).

End Process.

(** What the counters, the records of calls and the cache of a process
    have to do with one another. *)
Record consistent (settings : Settings) (w : world) : Prop := {
  classified_once : map snd (model_calls w) = analyze_calls w;
  texts_in_bounds :
    Forall (fun text => 1 <= length text <= 5000)%nat (analyze_calls w);
  two_readings : clock_reads w = (2 * length (analyze_calls w))%nat;
  durations_balance :
    (value (requests_total w) (py "/analyze", py "success") +
     value (requests_total w) (py "/analyze", py "error"))%nat =
    value (request_duration w) (py "/analyze");
  predictions_balance :
    (value (predictions_total w) (py "positive") +
     value (predictions_total w) (py "negative") +
     value (predictions_total w) (py "neutral"))%nat =
    value (requests_total w) (py "/analyze", py "success");
  predictions_labels :
    forall k, k ∉ AnalyzeResponse.sentiment_literal ->
              value (predictions_total w) k = 0%nat;
  loads_counted : pipeline_calls w = next_oid w;
  one_analyzer :
    match _analyzer w with
    | None => constructions w = 0%nat /\ analyze_calls w = []
    | Some a =>
        constructions w = 1%nat /\
        model_version a = model_name settings /\
        (oid a < next_oid w)%nat /\
        Forall (fun c => fst c = oid a) (model_calls w)
    end
}.





(** A caller that may still construct an analyzer. *)
Definition pending (c : caller) : nat :=
  match c with
  | at_test | at_construct => 1
  | _ => 0
  end.

(** A caller past the test either finds the cache filled when it returns
    or has returned an instance. *)
Definition holds_instance (w : world) (c : caller) : Prop :=
  match c with
  | at_return => _analyzer w <> None
  | returned r => r <> None
  | _ => True
  end.

(** The callers of a configuration that may still construct. *)
Definition pendings (cs : list caller) : nat := sum_list_with pending cs.

(** ** Collaborators for closed examples *)

Definition RuntimeError (msg : string) : exn :=
  {| exn_type := py "RuntimeError"; exn_str := py msg |}.

(** A classifier that answers by the first character of the text. *)
Definition stub_model : classifier :=
  fun text =>
    match text with
    | 33%N :: _ => inl (RuntimeError "CUDA error")          (* "!" *)
    | 63%N :: _ => inr [{| label := py "LABEL_1"; score := 3 # 2 |}]  (* "?" *)
    | 45%N :: _ => inr [{| label := py "negative"; score := 7 # 8 |}] (* "-" *)
    | _ => inr [{| label := py "POSITIVE"; score := 9998 # 10000 |}]
    end.

Definition stub_pipeline (n : nat) : exn + classifier := inr stub_model.

(** The first load fails, the following ones succeed. *)
Definition flaky_pipeline (n : nat) : exn + classifier :=
  match n with
  | O => inl (RuntimeError "connection reset")
  | S _ => inr stub_model
  end.

Definition no_pipeline (n : nat) : exn + classifier :=
  inl (RuntimeError "model not found").

(** A clock that advances by an eighth of a second per reading, and one
    that stands still. *)
Definition stub_clock (n : nat) : Q := Z.of_nat n # 8.

Definition stub_utcnow (n : nat) : Z := 1765881000 + Z.of_nat n.

Definition stub_upper (c : N) : list N := [c].

Definition stub_validation_error_str (errs : field_errors) : pystr :=
  py "1 validation error for AnalyzeResponse".

(** A classifier that returns no prediction, and a clock that runs
    backwards. *)
Definition mute_pipeline (n : nat) : exn + classifier := inr (fun _ => inr []).
Definition backwards_clock (n : nat) : Q := 10 - (Z.of_nat n # 8).

Definition stub_serve : request -> world -> response * world :=
  serve stub_upper default_settings stub_pipeline stub_clock stub_utcnow
    stub_validation_error_str.

Definition stub_serve_all : list request -> world -> list response * world :=
  serve_all stub_upper default_settings stub_pipeline stub_clock stub_utcnow
    stub_validation_error_str.

(** The state after a GET /health and a POST /analyze. *)
Definition served_world : world :=
  snd (stub_serve (analyze_request (py "I love it"))
         (snd (stub_serve health_request initial_world))).

(** * Properties *)

(** Unfolding of the operations by name, for the sections below, where
    the same names stand for the operations applied to the collaborators. *)
Ltac unfold_GET_health := unfold GET_health.
Ltac unfold_POST_analyze := unfold POST_analyze.
Ltac unfold_analyze := unfold analyze.
Ltac unfold_analyze_sentiment := unfold analyze_sentiment.
Ltac unfold_caller_step := unfold caller_step.
Ltac unfold_get_analyzer := unfold get_analyzer.
Ltac unfold_health_check := unfold health_check.
Ltac unfold_load_failed := unfold load_failed.
Ltac unfold_loaded := unfold loaded.
Ltac unfold_map_label := unfold map_label.
Ltac unfold_step := unfold step.
Ltac unfold_caller_step_once := unfold caller_step at 1.

(** ** The label mapping *)

Section LabelMapping.

Variable to_upper_full : N -> list N.

Abbreviation upper := (upper to_upper_full).
Abbreviation map_label := (map_label to_upper_full).

Lemma label_map_lookup (k : pystr) :
  label_map !! k =
    if decide (py "POSITIVE" = k) then Some (py "positive")
    else if decide (py "NEGATIVE" = k) then Some (py "negative")
    else if decide (py "NEUTRAL" = k) then Some (py "neutral")
    else None.
Proof.
  unfold label_map. rewrite !lookup_insert, lookup_empty. reflexivity.
Qed.

Lemma upper_cons (c : N) (s : pystr) :
  upper (c :: s) = upper_char to_upper_full c ++ upper s.
Proof. reflexivity. Qed.

(** On an ASCII code point [upper] yields one code point, and it is a
    given upper-case letter exactly for that letter in either case. *)
Lemma upper_char_ascii (c x : N) :
  (c <? 128)%N = true ->
  ((65 <=? x) && (x <=? 90))%N = true ->
  exists c', upper_char to_upper_full c = [c'] /\
             (c' = x <-> ascii_caseless_char c x = true).
Proof.
  intros Hc Hx. unfold upper_char, ascii_caseless_char. rewrite Hc.
  apply andb_prop in Hx as [Hx1 Hx2].
  apply N.leb_le in Hx1. apply N.leb_le in Hx2.
  destruct (97 <=? c)%N eqn:H1; destruct (c <=? 122)%N eqn:H2; simpl;
    eexists; (split; [reflexivity|]);
    rewrite ?orb_false_r, ?orb_true_iff, ?N.eqb_eq;
    try apply N.leb_le in H1; try apply N.leb_le in H2; lia.
Qed.

Lemma upper_ascii_word (s w : pystr) :
  is_ascii s = true -> is_upper_word w = true ->
  (upper s = w <-> ascii_caseless s w = true).
Proof.
  revert w. induction s as [|c s IH]; intros w Hs Hw.
  - destruct w; cbn; split; congruence.
  - simpl in Hs. apply andb_prop in Hs as [Hc Hs].
    destruct w as [|x w].
    + destruct (upper_char_ascii c 65 Hc eq_refl) as (c' & Hc' & _).
      rewrite upper_cons, Hc'. simpl. split; congruence.
    + simpl in Hw. apply andb_prop in Hw as [Hx Hw].
      destruct (upper_char_ascii c x Hc Hx) as (c' & Hc' & Hiff).
      rewrite upper_cons, Hc'. simpl. rewrite andb_true_iff, <- Hiff, <- IH by assumption.
      split; [intros [= -> ->]; auto | intros [-> ->]; reflexivity].
Qed.

Lemma map_label_literal (raw : pystr) :
  map_label raw ∈ AnalyzeResponse.sentiment_literal.
Proof.
  unfold_map_label; unfold dict_get. rewrite label_map_lookup.
  unfold AnalyzeResponse.sentiment_literal.
  repeat case_decide; simpl; set_solver.
Qed.

End LabelMapping.

(** ** The two models *)

Lemma AnalyzeRequest_validate_ok (text : pystr) :
  (1 <= length text <= 5000)%nat ->
  AnalyzeRequest.validate text = inr {| AnalyzeRequest.text := text |}.
Proof.
  intros [Hlo Hhi].
  unfold AnalyzeRequest.validate, AnalyzeRequest.errors, check,
    AnalyzeRequest.min_length, AnalyzeRequest.max_length.
  apply Nat.leb_le in Hlo. apply Nat.leb_le in Hhi.
  rewrite Hlo, Hhi. reflexivity.
Qed.



Lemma AnalyzeResponse_validate_ok (r : AnalyzeResponse.t) :
  AnalyzeResponse.sentiment r ∈ AnalyzeResponse.sentiment_literal ->
  in_unit_interval (AnalyzeResponse.confidence r) ->
  AnalyzeResponse.validate r = inr r.
Proof.
  intros Hs [Hlo Hhi].
  unfold AnalyzeResponse.validate, AnalyzeResponse.errors, check, ge, le.
  rewrite bool_decide_eq_true_2 by exact Hs.
  apply Qle_bool_iff in Hlo. apply Qle_bool_iff in Hhi.
  rewrite Hlo, Hhi. reflexivity.
Qed.

Lemma AnalyzeResponse_validate_inv (r r' : AnalyzeResponse.t) :
  AnalyzeResponse.validate r = inr r' ->
  r' = r /\
  AnalyzeResponse.sentiment r ∈ AnalyzeResponse.sentiment_literal /\
  in_unit_interval (AnalyzeResponse.confidence r).
Proof.
  unfold AnalyzeResponse.validate, AnalyzeResponse.errors, check, ge, le,
    in_unit_interval.
  destruct (bool_decide _) eqn:Hs;
    destruct (Qle_bool 0 _) eqn:Hlo;
    destruct (Qle_bool _ 1) eqn:Hhi; simpl; try discriminate.
  intros [= <-].
  apply bool_decide_eq_true_1 in Hs.
  apply Qle_bool_iff in Hlo. apply Qle_bool_iff in Hhi. auto.
Qed.

Lemma AnalyzeResponse_validate_reject (r : AnalyzeResponse.t) :
  AnalyzeResponse.sentiment r ∉ AnalyzeResponse.sentiment_literal \/
  ~ in_unit_interval (AnalyzeResponse.confidence r) ->
  exists errs, errs <> [] /\ AnalyzeResponse.validate r = inl errs.
Proof.
  intros Hbad.
  destruct (AnalyzeResponse.validate r) as [errs|r'] eqn:Hv.
  - exists errs. split; [|reflexivity].
    unfold AnalyzeResponse.validate in Hv.
    destruct (AnalyzeResponse.errors r); [discriminate|].
    injection Hv as <-. discriminate.
  - apply AnalyzeResponse_validate_inv in Hv as (_ & Hs & Hc).
    destruct Hbad; contradiction.
Qed.

(** C1.  The label mapping is a total function of the raw label (the
    result is one of the three canonical sentiments, for every string and
    whatever the Unicode table is).  It compares the whole upper-cased
    label with the three keys: POSITIVE, NEGATIVE and NEUTRAL give
    positive, negative and neutral, every other label, the empty one
    included, gives neutral.  On an ASCII label, upper-casing to a key is
    being that key up to letter case, code point by code point. *)
Theorem label_mapping_total_exact (to_upper_full : N -> list N) (raw : pystr) :
  let key := upper to_upper_full raw in
  let result := map_label to_upper_full raw in
  (key = py "POSITIVE" -> result = py "positive") /\
  (key = py "NEGATIVE" -> result = py "negative") /\
  (key = py "NEUTRAL" -> result = py "neutral") /\
  (key ∉ [py "POSITIVE"; py "NEGATIVE"; py "NEUTRAL"] -> result = py "neutral") /\
  result ∈ AnalyzeResponse.sentiment_literal /\
  map_label to_upper_full [] = py "neutral" /\
  (is_ascii raw = true ->
   forall w, w ∈ [py "POSITIVE"; py "NEGATIVE"; py "NEUTRAL"] ->
             key = w <-> ascii_caseless raw w = true).
Proof.
  intros key result. subst result. unfold map_label, dict_get. fold key.
  rewrite label_map_lookup.
  split; [intros ->; reflexivity|].
  split; [intros ->; reflexivity|].
  split; [intros ->; reflexivity|].
  split; [|split; [|split]].
  - intros Hk. repeat case_decide; try reflexivity;
      exfalso; apply Hk; subst key; set_solver.
  - unfold AnalyzeResponse.sentiment_literal.
    repeat case_decide; simpl; set_solver.
  - reflexivity.
  - intros Hascii w Hw. apply upper_ascii_word; [assumption|].
    revert Hw. rewrite !elem_of_cons, elem_of_nil.
    intros [-> | [-> | [-> | []]]]; reflexivity.
Qed.

(** The mapping at the label "PoSiTiVe", which is ASCII. *)
Lemma label_mapping_total_exact_witness :
  map_label stub_upper (py "PoSiTiVe") = py "positive" /\
  (upper stub_upper (py "PoSiTiVe") = py "POSITIVE" <->
   ascii_caseless (py "PoSiTiVe") (py "POSITIVE") = true).
Proof.
  pose proof (label_mapping_total_exact stub_upper (py "PoSiTiVe")) as H.
  cbv zeta in H.
  destruct H as (Hpos & _ & _ & _ & _ & _ & Hascii).
  split.
  - apply Hpos. reflexivity.
  - apply Hascii.
    + reflexivity.
    + apply elem_of_cons. left. reflexivity.
Defined.

(** ** The singleton accessor *)

Lemma constructions_snoc (w : world) (l : list log_record) (r : log_record) :
  constructions (set_log (l ++ [r]) w) =
    (length (List.filter is_model_loaded l) + (if is_model_loaded r then 1 else 0))%nat.
Proof.
  unfold constructions. simpl. rewrite List.filter_app, length_app. simpl.
  destruct (is_model_loaded r); reflexivity.
Qed.

Section Accessor.

Variable settings : Settings.
Variable pipeline : nat -> exn + classifier.

Abbreviation get_analyzer := (get_analyzer settings pipeline).
Abbreviation calls := (calls settings pipeline).
Abbreviation loaded := (loaded settings).
Abbreviation load_failed := (load_failed settings).

(** What one call does, by the cache and by the outcome of the load. *)
Lemma get_analyzer_eq (w : world) :
  get_analyzer w =
    match _analyzer w with
    | Some a => (inr (Some a), w)
    | None =>
        match pipeline (pipeline_calls w) with
        | inr m => (inr (Some (new_analyzer settings m w)), loaded m w)
        | inl e => (inl e, load_failed e w)
        end
    end.
Proof.
  unfold_get_analyzer; unfold bind, gets. simpl.
  destruct (_analyzer w) as [a|] eqn:Hc; simpl.
  - rewrite Hc. reflexivity.
  - unfold SentimentAnalyzer_init, try_except, call_pipeline, bind, gets,
      logger, modify, ret, raise. simpl.
    destruct (pipeline (pipeline_calls w)) as [e|m]; reflexivity.
Qed.

Lemma get_analyzer_cached (w : world) (a : SentimentAnalyzer) :
  _analyzer w = Some a -> get_analyzer w = (inr (Some a), w).
Proof. intros H. rewrite get_analyzer_eq, H. reflexivity. Qed.

Lemma constructions_loaded (m : classifier) (w : world) :
  constructions (loaded m w) = S (constructions w).
Proof.
  unfold constructions; unfold_loaded; unfold attempted. simpl.
  rewrite !List.filter_app, !length_app. simpl. lia.
Qed.

Lemma constructions_load_failed (e : exn) (w : world) :
  constructions (load_failed e w) = constructions w.
Proof.
  unfold constructions; unfold_load_failed; unfold attempted. simpl.
  rewrite !List.filter_app, !length_app. simpl. lia.
Qed.

(** A call that returns hands out the instance the cache then holds,
    never [None]. *)
Lemma get_analyzer_returns (w w' : world) (r : option SentimentAnalyzer) :
  get_analyzer w = (inr r, w') ->
  exists a, r = Some a /\ _analyzer w' = Some a.
Proof.
  rewrite get_analyzer_eq.
  destruct (_analyzer w) as [a|] eqn:Hc.
  - intros [= <- <-]. eauto.
  - destruct (pipeline (pipeline_calls w)) as [e|m]; [discriminate|].
    intros [= <- <-]. eauto.
Qed.

(** A call that raises found the cache empty and leaves it so. *)
Lemma get_analyzer_raises (w w' : world) (e : exn) :
  get_analyzer w = (inl e, w') ->
  _analyzer w = None /\ _analyzer w' = None /\
  pipeline (pipeline_calls w) = inl e /\
  constructions w' = constructions w.
Proof.
  rewrite get_analyzer_eq.
  destruct (_analyzer w) as [a|] eqn:Hc; [discriminate|].
  destruct (pipeline (pipeline_calls w)) as [e'|m]; [|discriminate].
  intros [= <- <-]. repeat split; try reflexivity; try exact Hc.
  apply constructions_load_failed.
Qed.

(** Once the cache is filled, every later call returns its content and
    changes nothing. *)
Lemma calls_cached (a : SentimentAnalyzer) (w : world) :
  _analyzer w = Some a ->
  forall n i rw, calls n w !! i = Some rw -> rw = (inr (Some a), w).
Proof.
  intros Hc n. induction n as [|n IH]; intros i rw; simpl.
  - rewrite lookup_nil. discriminate.
  - rewrite (get_analyzer_cached w a Hc). simpl.
    destruct i as [|i]; simpl.
    + congruence.
    + apply IH.
Qed.

Lemma calls_frozen (n : nat) : forall (w : world) i j ri wi rwj,
  (i <= j)%nat ->
  calls n w !! i = Some (inr ri, wi) ->
  calls n w !! j = Some rwj ->
  rwj = (inr ri, wi) /\ exists a, ri = Some a /\ _analyzer wi = Some a.
Proof.
  induction n as [|n IH]; intros w i j ri wi rwj Hij; simpl.
  - rewrite lookup_nil. discriminate.
  - destruct i as [|i]; simpl.
    + intros Hi. injection Hi as Hi.
      destruct (get_analyzer_returns _ _ _ Hi) as (a & -> & Ha).
      rewrite Hi. intros Hj. split; [|eauto].
      destruct j as [|j]; simpl in Hj.
      * injection Hj as <-. reflexivity.
      * rewrite (calls_cached a wi Ha _ _ _ Hj). reflexivity.
    + destruct j as [|j]; [lia|]. simpl. apply IH. lia.
Qed.

Lemma calls_constructions (n : nat) : forall (w : world) i rw,
  calls n w !! i = Some rw ->
  (constructions w <= constructions (snd rw) <= S (constructions w))%nat /\
  (_analyzer w <> None -> constructions (snd rw) = constructions w).
Proof.
  induction n as [|n IH]; intros w i rw; simpl.
  - rewrite lookup_nil. discriminate.
  - rewrite get_analyzer_eq.
    destruct (_analyzer w) as [a|] eqn:Hc.
    + intros H.
      assert (rw = (inr (Some a), w)) as ->.
      { apply (calls_cached a w Hc (S n) i). simpl.
        rewrite (get_analyzer_cached w a Hc). exact H. }
      simpl. split; [lia | reflexivity].
    + destruct (pipeline (pipeline_calls w)) as [e|m]; simpl.
      * destruct i as [|i]; simpl.
        -- intros [= <-]. simpl. rewrite constructions_load_failed.
           split; [lia | congruence].
        -- intros H. apply IH in H as [H _].
           rewrite constructions_load_failed in H. split; [lia | congruence].
      * destruct i as [|i]; simpl.
        -- intros [= <-]. simpl. rewrite constructions_loaded.
           split; [lia | congruence].
        -- intros H.
           rewrite (calls_cached (new_analyzer settings m w) (loaded m w) eq_refl _ _ _ H).
           simpl. rewrite constructions_loaded. split; [lia | congruence].
Qed.

Lemma calls_length (n : nat) : forall w, length (calls n w) = n.
Proof. induction n as [|n IH]; intros w; simpl; [|rewrite IH]; reflexivity. Qed.

Lemma calls_cached_eq (a : SentimentAnalyzer) (w : world) (n : nat) :
  _analyzer w = Some a -> calls n w = replicate n (inr (Some a), w).
Proof.
  intros Hc. induction n as [|n IH]; simpl; [reflexivity|].
  rewrite (get_analyzer_cached w a Hc). simpl. rewrite IH. reflexivity.
Qed.

Lemma calls_loaded_eq (m : classifier) (w : world) (n : nat) :
  _analyzer w = None -> pipeline (pipeline_calls w) = inr m ->
  calls n w = replicate n (inr (Some (new_analyzer settings m w)), loaded m w).
Proof.
  intros Hc Hm. destruct n as [|n]; simpl; [reflexivity|].
  rewrite get_analyzer_eq, Hc, Hm. simpl.
  rewrite (calls_cached_eq (new_analyzer settings m w)) by reflexivity.
  reflexivity.
Qed.

(** C4.  In a run of [n] calls of [get_analyzer()] one after the other,
    from any state of the process: once a call has returned, every later
    call returns the same instance and leaves the state as it was (no
    second initialization); any two calls that return give the same
    instance, which is the cached one; at most one construction
    completes during the run, none if the cache was filled; and when
    the cache is filled, or empty with a load that succeeds, all [n]
    calls return that one instance after exactly one call of
    [pipeline]. *)
Theorem get_analyzer_singleton (n : nat) (w : world) :
  let trace := calls n w in
  length trace = n /\
  (forall i j ri wi rwj,
     (i <= j)%nat ->
     trace !! i = Some (inr ri, wi) -> trace !! j = Some rwj ->
     rwj = (inr ri, wi) /\ exists a, ri = Some a /\ _analyzer wi = Some a) /\
  (forall i j ri wi rj wj,
     trace !! i = Some (inr ri, wi) -> trace !! j = Some (inr rj, wj) ->
     ri = rj) /\
  (forall i rw,
     trace !! i = Some rw ->
     (constructions (snd rw) <= S (constructions w))%nat /\
     (_analyzer w <> None -> constructions (snd rw) = constructions w)) /\
  (forall a, _analyzer w = Some a -> trace = replicate n (inr (Some a), w)) /\
  (forall m,
     _analyzer w = None -> pipeline (pipeline_calls w) = inr m ->
     trace = replicate n (inr (Some (new_analyzer settings m w)), loaded m w) /\
     pipeline_calls (loaded m w) = S (pipeline_calls w) /\
     constructions (loaded m w) = S (constructions w)).
Proof.
  intros trace. subst trace.
  split; [apply calls_length|].
  split; [apply calls_frozen|].
  split; [|split; [|split]].
  - intros i j ri wi rj wj Hi Hj.
    destruct (Nat.le_ge_cases i j) as [Hij|Hji].
    + destruct (calls_frozen n w i j ri wi _ Hij Hi Hj) as [Heq _]. congruence.
    + destruct (calls_frozen n w j i rj wj _ Hji Hj Hi) as [Heq _]. congruence.
  - intros i rw Hi.
    destruct (calls_constructions n w i rw Hi) as [[_ Hle] Hsame]. auto.
  - intros a Hc. apply calls_cached_eq. exact Hc.
  - intros m Hc Hm.
    split; [apply calls_loaded_eq; assumption|].
    split; [reflexivity | apply constructions_loaded].
Qed.

(** *** Callers that overlap *)

Abbreviation caller_step := (caller_step settings pipeline).
Abbreviation step := (step settings pipeline).
Abbreviation run := (run settings pipeline).
Abbreviation after_calls := (after_calls settings pipeline).

(** The four steps of one caller, taken together, are one call. *)
Lemma caller_steps_call (w : world) :
  let '(c1, w1) := caller_step at_test w in
  let '(c2, w2) := caller_step c1 w1 in
  let '(c3, w3) := caller_step c2 w2 in
  caller_step c3 w3 = (finished (fst (get_analyzer w)), snd (get_analyzer w)).
Proof.
  rewrite get_analyzer_eq. unfold_caller_step_once.
  destruct (_analyzer w) as [a|] eqn:Hc; simpl.
  - rewrite Hc. reflexivity.
  - unfold SentimentAnalyzer_init, try_except, call_pipeline, bind, gets,
      logger, modify, ret, raise. simpl.
    destruct (pipeline (pipeline_calls w)) as [e|m]; reflexivity.
Qed.

Lemma step_middle (done rest : list caller) (c : caller) (w : world) :
  step (length done) (done ++ c :: rest, w) =
    (done ++ fst (caller_step c w) :: rest, snd (caller_step c w)).
Proof.
  unfold_step. simpl.
  rewrite list_lookup_middle by reflexivity.
  destruct (caller_step c w) as [c' w']. simpl.
  rewrite insert_app_r_alt by lia. rewrite Nat.sub_diag. reflexivity.
Qed.

Lemma run_app (s1 s2 : list nat) (cfg : list caller * world) :
  run (s1 ++ s2) cfg = run s2 (run s1 cfg).
Proof. apply fold_left_app. Qed.

Lemma run_one_caller (done rest : list caller) (w : world) :
  run (replicate 4 (length done)) (done ++ at_test :: rest, w) =
    (done ++ finished (fst (get_analyzer w)) :: rest, snd (get_analyzer w)).
Proof.
  pose proof (caller_steps_call w) as H.
  simpl. rewrite step_middle.
  destruct (caller_step at_test w) as [c1 w1]. simpl. rewrite step_middle.
  destruct (caller_step c1 w1) as [c2 w2]. simpl. rewrite step_middle.
  destruct (caller_step c2 w2) as [c3 w3]. simpl. rewrite step_middle.
  rewrite H. reflexivity.
Qed.

(** Callers that do not overlap behave as the calls made in sequence. *)
Lemma run_serial (n : nat) : forall (done : list caller) (w : world),
  run (serial (length done) n) (done ++ replicate n at_test, w) =
    (done ++ map (fun rw => finished (fst rw)) (calls n w), after_calls n w).
Proof.
  induction n as [|n IH]; intros done w; [reflexivity|].
  cbn [serial calls after_calls map].
  change (replicate (S n) at_test) with (at_test :: replicate n at_test).
  rewrite run_app, run_one_caller.
  specialize (IH (done ++ [finished (fst (get_analyzer w))]) (snd (get_analyzer w))).
  rewrite length_app, Nat.add_1_r, <- !app_assoc in IH. exact IH.
Qed.

(** With the cache filled, a step of any caller changes nothing shared. *)
Lemma step_served (a : SentimentAnalyzer) (i : nat) (cs : list caller) (w : world) :
  _analyzer w = Some a -> Forall (served a) cs ->
  exists cs', step i (cs, w) = (cs', w) /\ Forall (served a) cs'.
Proof.
  intros Hc Hcs. unfold_step. simpl.
  destruct (cs !! i) as [c|] eqn:Hi; [|eauto].
  pose proof (Forall_lookup_1 _ _ _ _ Hcs Hi) as [-> | [-> | ->]]; simpl.
  - rewrite Hc. eexists. split; [reflexivity|].
    apply Forall_insert; [assumption | right; left; reflexivity].
  - rewrite Hc. eexists. split; [reflexivity|].
    apply Forall_insert; [assumption | right; right; reflexivity].
  - eexists. split; [reflexivity|].
    apply Forall_insert; [assumption | right; right; reflexivity].
Qed.

Lemma run_served (a : SentimentAnalyzer) (schedule : list nat) :
  forall (cs : list caller) (w : world),
  _analyzer w = Some a -> Forall (served a) cs ->
  exists cs', run schedule (cs, w) = (cs', w) /\ Forall (served a) cs'.
Proof.
  induction schedule as [|i schedule IH]; intros cs w Hc Hcs; simpl.
  - eauto.
  - destruct (step_served a i cs w Hc Hcs) as (cs1 & -> & Hcs1).
    apply IH; assumption.
Qed.

(** C5 (amended).  [get_analyzer()] takes no lock.  Callers that do not
    overlap behave as calls made in sequence, so with an empty cache and
    a load that succeeds exactly one construction occurs and every
    caller gets that instance.  Callers that find the cache filled (the
    analyzer was built before they arrived) construct nothing and get
    the cached instance, in whatever order their steps interleave. *)
Theorem construct_once_without_overlap (n : nat) (w : world) :
  run (serial 0 n) (replicate n at_test, w) =
    (map (fun rw => finished (fst rw)) (calls n w), after_calls n w) /\
  (forall m,
     _analyzer w = None -> pipeline (pipeline_calls w) = inr m -> (1 <= n)%nat ->
     run (serial 0 n) (replicate n at_test, w) =
       (replicate n (returned (Some (new_analyzer settings m w))), loaded m w) /\
     constructions (loaded m w) = S (constructions w) /\
     pipeline_calls (loaded m w) = S (pipeline_calls w)) /\
  (forall a schedule,
     _analyzer w = Some a ->
     exists cs,
       run schedule (replicate n at_test, w) = (cs, w) /\
       Forall (served a) cs).
Proof.
  split; [exact (run_serial n [] w)|]. split.
  - intros m Hc Hm Hn.
    pose proof (run_serial n [] w) as Hrun. simpl in Hrun. rewrite Hrun.
    rewrite (calls_loaded_eq m w n Hc Hm).
    split; [|split; [apply constructions_loaded | reflexivity]].
    f_equal.
    + clear. induction n as [|n IH]; simpl; [|rewrite IH]; reflexivity.
    + destruct n as [|n]; [lia|]. simpl.
      rewrite get_analyzer_eq, Hc, Hm. simpl.
      clear. induction n as [|n IH]; simpl; [reflexivity | exact IH].
  - intros a schedule Hc. apply run_served; [exact Hc|].
    apply Forall_replicate. left. reflexivity.
Qed.

End Accessor.

(** ** The analyzer and the routes, step by step *)

Lemma value_inc `{Countable K} (m : gmap K nat) (k : K) :
  value (inc k m) k = S (value m k).
Proof. unfold value, inc. rewrite lookup_insert_eq. reflexivity. Qed.

Lemma value_inc_ne `{Countable K} (m : gmap K nat) (k k' : K) :
  k <> k' -> value (inc k m) k' = value m k'.
Proof. intros Hne. unfold value, inc. rewrite lookup_insert_ne by exact Hne. reflexivity. Qed.

Section Routes.

Variable to_upper_full : N -> list N.
Variable settings : Settings.
Variable pipeline : nat -> exn + classifier.
Variable clock : nat -> Q.
Variable utcnow : nat -> Z.
Variable validation_error_str : field_errors -> pystr.

Abbreviation get_analyzer := (get_analyzer settings pipeline).
Abbreviation analyze := (analyze to_upper_full clock).
Abbreviation analyze_sentiment :=
  (analyze_sentiment to_upper_full settings pipeline clock utcnow
     validation_error_str).
Abbreviation POST_analyze :=
  (POST_analyze to_upper_full settings pipeline clock utcnow
     validation_error_str).
Abbreviation health_check := (health_check settings pipeline).
Abbreviation GET_health := (GET_health settings pipeline).
Abbreviation ValidationError := (ValidationError validation_error_str).

(** A call of [get_analyzer] touches the cache, the log and the counts of
    allocations and loads, nothing else. *)
Lemma get_analyzer_frame (w w' : world) r :
  get_analyzer w = (r, w') ->
  requests_total w' = requests_total w /\
  predictions_total w' = predictions_total w /\
  request_duration w' = request_duration w /\
  analyze_calls w' = analyze_calls w /\
  model_calls w' = model_calls w /\
  clock_reads w' = clock_reads w /\
  utc_reads w' = utc_reads w.
Proof.
  rewrite get_analyzer_eq.
  destruct (_analyzer w); [|destruct (pipeline (pipeline_calls w))];
    intros [= <- <-]; repeat split.
Qed.

Lemma analyze_eq (self : SentimentAnalyzer) (text : pystr) (w : world) :
  analyze self text w =
    match model self text with
    | inr (p :: _) =>
        let res := {| sentiment := map_label to_upper_full (label p);
                      confidence := score p;
                      processing_time_ms := elapsed_ms clock w |} in
        (inr res,
         analysis_logged
           (analysis_complete (sentiment res) (confidence res) (elapsed_ms clock w))
           self text w)
    | inr [] =>
        (inl IndexError,
         analysis_logged (analysis_failed_after (elapsed_ms clock w) IndexError)
           self text w)
    | inl e =>
        (inl e,
         analysis_logged (analysis_failed_after (elapsed_ms clock w) e)
           self text w)
    end.
Proof.
  unfold_analyze; unfold try_except, bind, modify, time_time, call_model,
    logger, ret, raise. simpl.
  destruct (model self text) as [e|[|p ps]]; reflexivity.
Qed.

Lemma analyze_sentiment_eq (request : AnalyzeRequest.t) (w : world) :
  analyze_sentiment request w =
    let text := AnalyzeRequest.text request in
    match get_analyzer w with
    | (inl e, w1) => (inl (analysis_failure e), failed e text (observed w1))
    | (inr None, w1) =>
        (inl (analysis_failure (AttributeError "analyze")),
         failed (AttributeError "analyze") text (observed w1))
    | (inr (Some a), w1) =>
        match analyze a text w1 with
        | (inl e, w2) => (inl (analysis_failure e), failed e text (observed w2))
        | (inr res, w2) =>
            let w3 := set_utc_reads (S (utc_reads w2)) w2 in
            match AnalyzeResponse.validate (response_of settings utcnow text a res w2) with
            | inl errs =>
                (inl (analysis_failure (ValidationError errs)),
                 failed (ValidationError errs) text (observed w3))
            | inr r => (inr r, observed (succeeded r text w3))
            end
        end
    end.
Proof.
  unfold_analyze_sentiment; unfold try_except, with_exit.
  unfold bind at 1.
  destruct (get_analyzer w) as [[e|[a|]] w1]; try reflexivity.
  simpl. unfold bind at 1.
  destruct (analyze a (AnalyzeRequest.text request) w1) as [[e|res] w2];
    try reflexivity.
  unfold bind, ret, datetime_utcnow, new_AnalyzeResponse, response_of. simpl.
  destruct (AnalyzeResponse.validate _) as [errs|r]; reflexivity.
Qed.

Lemma health_check_eq (w : world) :
  health_check w =
    match get_analyzer w with
    | (inr analyzer, w1) =>
        (inr {| HealthResponse.status := py "healthy";
                HealthResponse.version := app_version settings;
                HealthResponse.model_loaded := bool_decide (analyzer <> None) |},
         set_requests_total
           (inc (py "/health", py "success") (requests_total w1)) w1)
    | (inl e, w1) =>
        let w2 := set_requests_total
                    (inc (py "/health", py "error") (requests_total w1)) w1 in
        (inl {| status_code := 503; detail := py "Service unhealthy" |},
         set_log (log w2 ++ [health_check_failed (exn_str e)]) w2)
    end.
Proof.
  unfold_health_check; unfold try_except. unfold bind at 1.
  destruct (get_analyzer w) as [[e|analyzer] w1]; reflexivity.
Qed.


(** C2.  For a text of 1 to 5000 characters, an analyzer that the
    accessor hands out and a classifier answer whose score lies in
    [0,1], POST /analyze answers 200 with an AnalyzeResponse whose text
    is the input, whose sentiment is the mapped label and one of the
    three canonical values, whose confidence is the score and lies in
    [0,1], and whose cost estimate is the configured constant. *)
Theorem analyze_response_valid (text : pystr) (w w1 : world)
    (a : SentimentAnalyzer) (p : prediction) (rest : list prediction) :
  (1 <= length text <= 5000)%nat ->
  get_analyzer w = (inr (Some a), w1) ->
  model a text = inr (p :: rest) ->
  in_unit_interval (score p) ->
  exists r w',
    POST_analyze text w = ({| status := 200; body := analyze_json r |}, w') /\
    AnalyzeResponse.text r = text /\
    AnalyzeResponse.sentiment r = map_label to_upper_full (label p) /\
    AnalyzeResponse.sentiment r ∈ [py "positive"; py "negative"; py "neutral"] /\
    AnalyzeResponse.confidence r = score p /\
    in_unit_interval (AnalyzeResponse.confidence r) /\
    AnalyzeResponse.cost_estimate_usd r = cost_per_inference_usd settings.
Proof.
  intros Hlen Hget Hmodel Hscore.
  unfold_POST_analyze.
  rewrite (AnalyzeRequest_validate_ok text Hlen), analyze_sentiment_eq, Hget.
  simpl. rewrite analyze_eq, Hmodel. simpl.
  rewrite AnalyzeResponse_validate_ok
    by (simpl; [apply map_label_literal || exact Hscore]).
  simpl. eexists _, _. split; [reflexivity|]. simpl.
  repeat split; try apply Hscore. apply map_label_literal.
Qed.


(** C6.  When the classifier raises [e] on the text, [analyze] calls it
    once (no retry), logs the failure with the elapsed time and raises
    the same [e] (no result); POST /analyze then answers 500 with the
    detail "Analysis failed: " followed by [str(e)], and the error
    counter of /analyze is one higher than before the request. *)
Theorem inference_failure (text : pystr) (w w1 : world)
    (a : SentimentAnalyzer) (e : exn) :
  (1 <= length text <= 5000)%nat ->
  get_analyzer w = (inr (Some a), w1) ->
  model a text = inl e ->
  exists w2 w',
    analyze a text w1 = (inl e, w2) /\
    log w2 = log w1 ++ [analysis_failed_after (elapsed_ms clock w1) e] /\
    model_calls w2 = model_calls w1 ++ [(oid a, text)] /\
    POST_analyze text w =
      ({| status := 500;
          body := detail_json (py "Analysis failed: " ++ exn_str e) |}, w') /\
    value (requests_total w') (py "/analyze", py "error") =
      S (value (requests_total w) (py "/analyze", py "error")) /\
    value (requests_total w') (py "/analyze", py "success") =
      value (requests_total w) (py "/analyze", py "success").
Proof.
  intros Hlen Hget Hmodel.
  destruct (get_analyzer_frame _ _ _ Hget) as (Hreq & _).
  eexists _, _. split; [rewrite analyze_eq, Hmodel; reflexivity|].
  split; [reflexivity|]. split; [reflexivity|].
  unfold_POST_analyze.
  rewrite (AnalyzeRequest_validate_ok text Hlen), analyze_sentiment_eq, Hget.
  simpl. rewrite analyze_eq, Hmodel. simpl.
  split; [reflexivity|]. simpl. rewrite Hreq. split.
  - apply value_inc.
  - apply value_inc_ne. discriminate.
Qed.

(** C7.  GET /health calls the accessor.  When it returns, the answer is
    200 with status "healthy", the configured version and
    model_loaded true, and the success counter of /health goes up by
    one.  When it raises, the answer is 503 with the fixed detail
    "Service unhealthy" (nothing of the exception), the error counter
    of /health goes up by one, the failure is logged, and the process
    goes on: the cache is still empty and the next GET /health is
    answered 200 as soon as the load succeeds. *)
Theorem health_outcomes (w : world) :
  (forall r w1,
     get_analyzer w = (inr r, w1) ->
     exists w',
       GET_health w =
         ({| status := 200;
             body := health_json
                       {| HealthResponse.status := py "healthy";
                          HealthResponse.version := app_version settings;
                          HealthResponse.model_loaded := true |} |}, w') /\
       value (requests_total w') (py "/health", py "success") =
         S (value (requests_total w) (py "/health", py "success"))) /\
  (forall e w1,
     get_analyzer w = (inl e, w1) ->
     exists w',
       GET_health w =
         ({| status := 503; body := detail_json (py "Service unhealthy") |}, w') /\
       value (requests_total w') (py "/health", py "error") =
         S (value (requests_total w) (py "/health", py "error")) /\
       log w' = log w1 ++ [health_check_failed (exn_str e)] /\
       _analyzer w' = None /\
       forall m, pipeline (pipeline_calls w') = inr m ->
                 status (fst (GET_health w')) = 200%nat).
Proof.
  split.
  - intros r w1 Hget.
    destruct (get_analyzer_frame _ _ _ Hget) as (Hreq & _).
    destruct (get_analyzer_returns _ _ _ _ _ Hget) as (a & -> & _).
    unfold_GET_health. rewrite health_check_eq, Hget. simpl.
    eexists. split; [reflexivity|]. simpl. rewrite Hreq. apply value_inc.
  - intros e w1 Hget.
    destruct (get_analyzer_frame _ _ _ Hget) as (Hreq & _).
    destruct (get_analyzer_raises _ _ _ _ _ Hget) as (_ & Hnone & _).
    unfold_GET_health. rewrite health_check_eq, Hget. simpl.
    eexists. split; [reflexivity|]. simpl. rewrite Hreq.
    split; [apply value_inc|]. split; [reflexivity|]. split; [exact Hnone|].
    intros m Hm. rewrite health_check_eq, get_analyzer_eq. simpl.
    rewrite Hnone, Hm. reflexivity.
Qed.


(** C9.  Whatever the classifier returns, a 200 answer of POST /analyze
    carries a confidence in [0,1] and one of the three sentiments.  The
    constructor of AnalyzeResponse refuses any other value; in the
    route a score outside [0,1] thus ends in the handler's [except]:
    the answer is 500 with the detail "Analysis failed: " followed by
    the validation error, and the error counter of /analyze goes up. *)
Theorem no_invalid_response (text : pystr) (w : world) :
  (status (fst (POST_analyze text w)) = 200%nat ->
   exists r,
     body (fst (POST_analyze text w)) = analyze_json r /\
     in_unit_interval (AnalyzeResponse.confidence r) /\
     AnalyzeResponse.sentiment r ∈ [py "positive"; py "negative"; py "neutral"]) /\
  (forall r,
     AnalyzeResponse.sentiment r ∉ [py "positive"; py "negative"; py "neutral"] \/
     ~ in_unit_interval (AnalyzeResponse.confidence r) ->
     exists errs, errs <> [] /\ AnalyzeResponse.validate r = inl errs) /\
  (forall a w1 p rest,
     (1 <= length text <= 5000)%nat ->
     get_analyzer w = (inr (Some a), w1) ->
     model a text = inr (p :: rest) ->
     ~ in_unit_interval (score p) ->
     exists errs,
       errs <> [] /\
       fst (POST_analyze text w) =
         {| status := 500;
            body := detail_json
                      (py "Analysis failed: " ++ validation_error_str errs) |} /\
       value (requests_total (snd (POST_analyze text w))) (py "/analyze", py "error") =
         S (value (requests_total w) (py "/analyze", py "error"))).
Proof.
  split; [|split].
  - unfold_POST_analyze.
    destruct (AnalyzeRequest.validate text) as [errs|request]; [discriminate|].
    rewrite analyze_sentiment_eq. simpl.
    destruct (get_analyzer w) as [[e|[a|]] w1]; simpl; try discriminate.
    destruct (analyze a _ w1) as [[e|res] w2]; simpl; try discriminate.
    destruct (AnalyzeResponse.validate _) as [errs|r] eqn:Hv; simpl;
      try discriminate.
    intros _. exists r.
    apply AnalyzeResponse_validate_inv in Hv as (-> & Hs & Hc). auto.
  - apply AnalyzeResponse_validate_reject.
  - intros a w1 p rest Hlen Hget Hmodel Hbad.
    destruct (get_analyzer_frame _ _ _ Hget) as (Hreq & _).
    unfold_POST_analyze.
    rewrite (AnalyzeRequest_validate_ok text Hlen), analyze_sentiment_eq, Hget.
    simpl. rewrite analyze_eq, Hmodel. simpl.
    match goal with
    | |- context [AnalyzeResponse.validate ?r] =>
        destruct (AnalyzeResponse_validate_reject r (or_intror Hbad))
          as (errs & Hne & ->)
    end.
    exists errs. simpl. split; [exact Hne|]. split; [reflexivity|].
    rewrite Hreq. apply value_inc.
Qed.

(** C10.  A 200 answer of GET /health is a HealthResponse with
    model_loaded true: the accessor raised, and the answer is 503, or it
    returned an instance, never [None]. *)
Theorem healthy_means_loaded (w : world) :
  status (fst (GET_health w)) = 200%nat ->
  exists h a w1,
    body (fst (GET_health w)) = health_json h /\
    HealthResponse.model_loaded h = true /\
    HealthResponse.status h = py "healthy" /\
    get_analyzer w = (inr (Some a), w1).
Proof.
  unfold_GET_health. rewrite health_check_eq.
  destruct (get_analyzer w) as [[e|r] w1] eqn:Hget; simpl; [discriminate|].
  destruct (get_analyzer_returns _ _ _ _ _ Hget) as (a & -> & _).
  intros _. eexists _, a, w1. repeat split.
Qed.

End Routes.

(** ** The theorems at concrete inputs *)

(** The analyzer a process with the stub collaborators builds first. *)
Definition stub_analyzer : SentimentAnalyzer :=
  new_analyzer default_settings stub_model initial_world.

(** C4 at three calls: with a first load that fails, the second and the
    third call return the same instance and state; with loads that
    succeed, all three do. *)
Lemma get_analyzer_singleton_witness :
  (let w1 := load_failed default_settings (RuntimeError "connection reset")
               initial_world in
   calls default_settings flaky_pipeline 3 initial_world !! 2%nat =
     Some (inr (Some (new_analyzer default_settings stub_model w1)),
           loaded default_settings stub_model w1)) /\
  calls default_settings stub_pipeline 3 initial_world =
    replicate 3 (inr (Some stub_analyzer), loaded default_settings stub_model initial_world).
Proof.
  split.
  - pose proof (get_analyzer_singleton default_settings flaky_pipeline 3 initial_world) as H.
    cbv zeta in H. destruct H as (_ & Hfrozen & _).
    cbv zeta.
    set (w1 := load_failed default_settings (RuntimeError "connection reset")
                 initial_world).
    set (rw := (inr (Some (new_analyzer default_settings stub_model w1)),
                loaded default_settings stub_model w1)
               : (exn + option SentimentAnalyzer) * world).
    destruct (Hfrozen 1%nat 2%nat (Some (new_analyzer default_settings stub_model w1))
                (loaded default_settings stub_model w1) rw) as (_ & _).
    + lia.
    + vm_compute. reflexivity.
    + vm_compute. reflexivity.
    + vm_compute. reflexivity.
  - pose proof (get_analyzer_singleton default_settings stub_pipeline 3 initial_world) as H.
    cbv zeta in H. destruct H as (_ & _ & _ & _ & _ & Hloaded).
    destruct (Hloaded stub_model) as (Htrace & _).
    + reflexivity.
    + reflexivity.
    + exact Htrace.
Defined.

(** C5 at three callers: no overlap on an empty cache, and an arbitrary
    interleaving once the cache is filled. *)
Lemma construct_once_without_overlap_witness :
  run default_settings stub_pipeline (serial 0 3) (replicate 3 at_test, initial_world) =
    (replicate 3 (returned (Some stub_analyzer)),
     loaded default_settings stub_model initial_world) /\
  constructions (loaded default_settings stub_model initial_world) = 1%nat.
Proof.
  destruct (construct_once_without_overlap default_settings stub_pipeline 3 initial_world)
    as (_ & Hserial & _).
  destruct (Hserial stub_model) as (Hrun & Hone & _).
  - reflexivity.
  - reflexivity.
  - lia.
  - split; [exact Hrun | exact Hone].
Defined.

(** The route of [/analyze] and of [/health] with the stub collaborators. *)
Definition stub_POST_analyze : pystr -> world -> response * world :=
  POST_analyze stub_upper default_settings stub_pipeline stub_clock
    stub_utcnow stub_validation_error_str.

(** C5, the claim as stated, fails: two callers that both test the empty
    cache before either assigns construct two analyzers, and each returns
    its own. *)
Lemma overlapping_callers_construct_twice :
  let cfg := run default_settings stub_pipeline [0; 1; 0; 1; 0; 0; 1; 1]%nat
               ([at_test; at_test], initial_world) in
  constructions (snd cfg) = 2%nat /\
  pipeline_calls (snd cfg) = 2%nat /\
  map returned_oid (fst cfg) = [Some 0%nat; Some 1%nat].
Proof. cbv zeta. repeat split. Qed.

(** C2 at the text "I love it". *)
Lemma analyze_response_valid_witness :
  exists r w',
    stub_POST_analyze (py "I love it") initial_world =
      ({| status := 200; body := analyze_json r |}, w') /\
    AnalyzeResponse.text r = py "I love it" /\
    AnalyzeResponse.sentiment r = py "positive" /\
    AnalyzeResponse.confidence r = (9998 # 10000)%Q /\
    AnalyzeResponse.cost_estimate_usd r = (1 # 10000)%Q.
Proof.
  edestruct (analyze_response_valid stub_upper default_settings stub_pipeline
               stub_clock stub_utcnow stub_validation_error_str
               (py "I love it") initial_world)
    as (r & w' & Hpost & Htext & Hsent & _ & Hconf & _ & Hcost).
  - simpl. lia.
  - reflexivity.
  - reflexivity.
  - split; simpl; discriminate.
  - exists r, w'. repeat split; assumption.
Defined.


(** C6 at the text "!bad", on which the stub classifier raises. *)
Lemma inference_failure_witness :
  exists w',
    stub_POST_analyze (py "!bad") initial_world =
      ({| status := 500; body := detail_json (py "Analysis failed: CUDA error") |}, w') /\
    value (requests_total w') (py "/analyze", py "error") = 1%nat.
Proof.
  edestruct (inference_failure stub_upper default_settings stub_pipeline
               stub_clock stub_utcnow stub_validation_error_str
               (py "!bad") initial_world)
    as (w2 & w' & _ & _ & _ & Hpost & Herr & _).
  - simpl. lia.
  - reflexivity.
  - reflexivity.
  - exists w'. split; [exact Hpost | exact Herr].
Defined.

(** C7 with a load that fails once: 503 first, 200 on the next request. *)
Lemma health_outcomes_witness :
  (exists w',
     GET_health default_settings flaky_pipeline initial_world =
       ({| status := 503; body := detail_json (py "Service unhealthy") |}, w') /\
     value (requests_total w') (py "/health", py "error") = 1%nat) /\
  (exists w',
     GET_health default_settings stub_pipeline initial_world =
       ({| status := 200;
           body := health_json
                     {| HealthResponse.status := py "healthy";
                        HealthResponse.version := py "1.0.0";
                        HealthResponse.model_loaded := true |} |}, w')).
Proof.
  split.
  - destruct (health_outcomes default_settings flaky_pipeline initial_world)
      as [_ Hfail].
    edestruct Hfail as (w' & Hget & Herr & _).
    + reflexivity.
    + exists w'. split; [exact Hget | exact Herr].
  - destruct (health_outcomes default_settings stub_pipeline initial_world)
      as [Hok _].
    edestruct Hok as (w' & Hget & _).
    + reflexivity.
    + exists w'. exact Hget.
Defined.



(** C9 at the text "?odd", for which the stub classifier returns the
    score 3/2 and an unmapped label. *)
Lemma no_invalid_response_witness :
  status (fst (stub_POST_analyze (py "?odd") initial_world)) = 500%nat /\
  value (requests_total (snd (stub_POST_analyze (py "?odd") initial_world)))
    (py "/analyze", py "error") = 1%nat /\
  (exists r,
     body (fst (stub_POST_analyze (py "ok") initial_world)) = analyze_json r /\
     in_unit_interval (AnalyzeResponse.confidence r)).
Proof.
  destruct (no_invalid_response stub_upper default_settings stub_pipeline
              stub_clock stub_utcnow stub_validation_error_str
              (py "?odd") initial_world) as (_ & _ & Hreject).
  edestruct Hreject as (errs & _ & Hresp & Herr).
  - simpl. lia.
  - reflexivity.
  - reflexivity.
  - intros [_ H]. apply H. reflexivity.
  - split; [|split].
    + unfold stub_POST_analyze. rewrite Hresp. reflexivity.
    + exact Herr.
    + destruct (no_invalid_response stub_upper default_settings stub_pipeline
                  stub_clock stub_utcnow stub_validation_error_str
                  (py "ok") initial_world) as (H200 & _).
      destruct H200 as (r & Hbody & Hconf & _); [reflexivity|].
      exists r. split; [exact Hbody | exact Hconf].
Defined.

(** C10 at the first request of a process whose load succeeds. *)
Lemma healthy_means_loaded_witness :
  exists h,
    body (fst (GET_health default_settings stub_pipeline initial_world)) =
      health_json h /\
    HealthResponse.model_loaded h = true.
Proof.
  destruct (healthy_means_loaded default_settings stub_pipeline initial_world)
    as (h & a & w1 & Hbody & Hloaded & _).
  - reflexivity.
  - exists h. split; [exact Hbody | exact Hloaded].
Defined.

(** * The process over its lifetime *)

Lemma constructions_set_log (w : world) (r : log_record) :
  constructions (set_log (log w ++ [r]) w) =
    (constructions w + (if is_model_loaded r then 1 else 0))%nat.
Proof.
  unfold constructions. simpl. rewrite List.filter_app, length_app. simpl.
  destruct (is_model_loaded r); reflexivity.
Qed.

Section Lifetime.

Variable to_upper_full : N -> list N.
Variable settings : Settings.
Variable pipeline : nat -> exn + classifier.
Variable clock : nat -> Q.
Variable utcnow : nat -> Z.
Variable validation_error_str : field_errors -> pystr.

Lemma consistent_initial : consistent settings initial_world.
Proof.
  split; try reflexivity.
  - constructor.
  - simpl. split; reflexivity.
Qed.

Lemma consistent_get_analyzer (w w1 : world) r :
  consistent settings w ->
  get_analyzer settings pipeline w = (r, w1) ->
  consistent settings w1 /\
  (forall a, r = inr (Some a) -> _analyzer w1 = Some a) /\
  (forall e, r = inl e -> _analyzer w1 = None).
Proof.
  intros [H1 H2 H3 H4 H5 Hk H6 H7]. rewrite get_analyzer_eq.
  destruct (_analyzer w) as [a|] eqn:Hc.
  - intros [= <- <-]. split; [split; try assumption; rewrite Hc; exact H7|].
    split; [intros ? [= <-]; exact Hc | discriminate].
  - destruct H7 as [Hzero Hnone].
    assert (model_calls w = []) as Hmc.
    { rewrite Hnone in H1. destruct (model_calls w); [reflexivity | discriminate]. }
    destruct (pipeline (pipeline_calls w)) as [e|m]; intros [= <- <-].
    + split; [|split; [discriminate | intros ? _; exact Hc]].
      split; simpl; try assumption.
      * congruence.
      * rewrite Hc. split; [|exact Hnone].
        rewrite constructions_load_failed. exact Hzero.
    + split; [|split; [intros ? [= <-]; reflexivity | discriminate]].
      split; simpl; try assumption.
      * congruence.
      * split; [rewrite constructions_loaded, Hzero; reflexivity|].
        split; [reflexivity|]. split; [lia|]. rewrite Hmc. constructor.
Qed.

Lemma consistent_set_log (w : world) (r : log_record) :
  consistent settings w -> is_model_loaded r = false ->
  consistent settings (set_log (log w ++ [r]) w).
Proof.
  intros [H1 H2 H3 H4 H5 Hk H6 H7] Hr. split; simpl; try assumption.
  rewrite constructions_set_log, Hr, Nat.add_0_r. exact H7.
Qed.

Lemma consistent_health_counter (w : world) (outcome : pystr) :
  consistent settings w ->
  consistent settings
    (set_requests_total (inc (py "/health", outcome) (requests_total w)) w).
Proof.
  intros [H1 H2 H3 H4 H5 Hk H6 H7]. split; simpl; try assumption.
  - rewrite !value_inc_ne by discriminate. exact H4.
  - rewrite !value_inc_ne by discriminate. exact H5.
Qed.

Lemma consistent_analysis_logged (w : world) (a : SentimentAnalyzer)
    (text : pystr) (r : log_record) :
  consistent settings w -> _analyzer w = Some a ->
  (1 <= length text <= 5000)%nat -> is_model_loaded r = false ->
  consistent settings (analysis_logged r a text w).
Proof.
  intros [H1 H2 H3 H4 H5 Hk H6 H7] Hc Hlen Hr. rewrite Hc in H7.
  destruct H7 as (Hone & Hver & Hoid & Hcalls).
  split; simpl; try assumption.
  - rewrite map_app, H1. reflexivity.
  - apply Forall_app. split; [assumption|]. constructor; [exact Hlen | constructor].
  - rewrite H3, length_app. simpl. lia.
  - rewrite Hc. split; [|split; [|split]]; try assumption.
    + unfold constructions in *. simpl.
      rewrite List.filter_app, length_app. simpl. rewrite Hr. simpl. lia.
    + apply Forall_app. split; [assumption|]. constructor; [reflexivity | constructor].
Qed.

Lemma consistent_failed (w : world) (e : exn) (text : pystr) :
  consistent settings w -> consistent settings (failed e text (observed w)).
Proof.
  intros [H1 H2 H3 H4 H5 Hk H6 H7]. split; simpl; try assumption.
  - rewrite value_inc, value_inc, value_inc_ne by discriminate. lia.
  - rewrite value_inc_ne by discriminate. exact H5.
  - assert (constructions (failed e text (observed w)) = constructions w) as ->.
    { unfold constructions. simpl.
      rewrite List.filter_app, length_app. simpl. lia. }
    exact H7.
Qed.

Lemma consistent_succeeded (w : world) (r : AnalyzeResponse.t) (text : pystr) (n : nat) :
  consistent settings w ->
  AnalyzeResponse.sentiment r ∈ AnalyzeResponse.sentiment_literal ->
  consistent settings (observed (succeeded r text (set_utc_reads n w))).
Proof.
  intros [H1 H2 H3 H4 H5 Hk H6 H7] Hs. split; simpl; try assumption.
  - rewrite value_inc, value_inc, value_inc_ne by discriminate. lia.
  - rewrite value_inc.
    unfold AnalyzeResponse.sentiment_literal in Hs.
    rewrite !elem_of_cons, elem_of_nil in Hs.
    destruct Hs as [-> | [-> | [-> | []]]].
    + rewrite value_inc, !value_inc_ne by discriminate. lia.
    + rewrite value_inc, !value_inc_ne by discriminate. lia.
    + rewrite value_inc, !value_inc_ne by discriminate. lia.
  - intros k Hnot. rewrite value_inc_ne; [apply Hk, Hnot|].
    intros <-. contradiction.
  - assert (constructions (observed (succeeded r text (set_utc_reads n w))) =
            constructions w) as ->.
    { unfold constructions. simpl.
      rewrite List.filter_app, length_app. simpl. lia. }
    exact H7.
Qed.

Lemma consistent_analyze (w w' : world) (a : SentimentAnalyzer) (text : pystr) r :
  consistent settings w -> _analyzer w = Some a ->
  (1 <= length text <= 5000)%nat ->
  analyze to_upper_full clock a text w = (r, w') ->
  consistent settings w' /\ _analyzer w' = Some a.
Proof.
  intros Hw Hc Hlen. rewrite analyze_eq.
  destruct (model a text) as [e|[|p ps]]; intros [= <- <-];
    (split; [apply consistent_analysis_logged; auto | exact Hc]).
Qed.

Lemma startup_event_eq (w : world) :
  startup_event settings pipeline w =
    let w0 := set_log (log w ++ [application_starting (app_version settings)
                                   (model_name settings)]) w in
    match get_analyzer settings pipeline w0 with
    | (inr (Some a), w1) =>
        (inr tt, set_log (log w1 ++ [application_ready (model_version a)]) w1)
    | (inr None, w1) =>
        (inl (AttributeError "model_version"),
         set_log (log w1 ++ [application_startup_failed
                               (exn_str (AttributeError "model_version"))]) w1)
    | (inl e, w1) =>
        (inl e, set_log (log w1 ++ [application_startup_failed (exn_str e)]) w1)
    end.
Proof.
  unfold startup_event, try_except, logger, modify. unfold bind at 1. simpl.
  unfold bind at 1.
  destruct (get_analyzer settings pipeline _) as [[e|[a|]] w1]; reflexivity.
Qed.

Lemma consistent_startup_event (w : world) :
  consistent settings w ->
  consistent settings (snd (startup_event settings pipeline w)) /\
  (forall a, _analyzer w = Some a ->
             _analyzer (snd (startup_event settings pipeline w)) = Some a).
Proof.
  intros Hw. rewrite startup_event_eq. cbv zeta.
  pose proof (consistent_set_log w
                (application_starting (app_version settings) (model_name settings))
                Hw eq_refl) as Hw0.
  destruct (get_analyzer settings pipeline _) as [r w1] eqn:Hget.
  destruct (consistent_get_analyzer _ _ _ Hw0 Hget) as (Hw1 & _).
  assert (forall a, _analyzer w = Some a -> _analyzer w1 = Some a) as Hkeep.
  { intros a Ha. rewrite (get_analyzer_cached settings pipeline _ a) in Hget
      by exact Ha. injection Hget as _ <-. exact Ha. }
  destruct r as [e|[a|]]; simpl;
    (split; [apply consistent_set_log; [exact Hw1 | reflexivity] | exact Hkeep]).
Qed.

Lemma consistent_GET_health (w : world) :
  consistent settings w ->
  consistent settings (snd (GET_health settings pipeline w)) /\
  (forall a, _analyzer w = Some a ->
             _analyzer (snd (GET_health settings pipeline w)) = Some a).
Proof.
  intros Hw. unfold GET_health. rewrite health_check_eq.
  destruct (get_analyzer settings pipeline w) as [r w1] eqn:Hget.
  destruct (consistent_get_analyzer _ _ _ Hw Hget) as (Hw1 & _).
  assert (forall a, _analyzer w = Some a -> _analyzer w1 = Some a) as Hkeep.
  { intros a Ha. rewrite (get_analyzer_cached settings pipeline _ a) in Hget
      by exact Ha. injection Hget as _ <-. exact Ha. }
  destruct r as [e|r]; simpl.
  - split; [|exact Hkeep].
    apply (consistent_set_log
             (set_requests_total (inc (py "/health", py "error") (requests_total w1)) w1));
      [|reflexivity].
    apply consistent_health_counter. exact Hw1.
  - split; [|exact Hkeep]. apply consistent_health_counter. exact Hw1.
Qed.

Lemma consistent_POST_analyze (text : pystr) (w : world) :
  consistent settings w ->
  consistent settings
    (snd (POST_analyze to_upper_full settings pipeline clock utcnow
            validation_error_str text w)) /\
  (forall a, _analyzer w = Some a ->
             _analyzer (snd (POST_analyze to_upper_full settings pipeline clock
                               utcnow validation_error_str text w)) = Some a).
Proof.
  intros Hw. unfold POST_analyze.
  destruct (AnalyzeRequest.validate text) as [errs|request] eqn:Hv; simpl.
  { split; [exact Hw | auto]. }
  assert (AnalyzeRequest.text request = text /\ (1 <= length text <= 5000)%nat)
    as [Htext Hlen].
  { unfold AnalyzeRequest.validate, AnalyzeRequest.errors, check,
      AnalyzeRequest.min_length, AnalyzeRequest.max_length in Hv.
    destruct (1 <=? length text)%nat eqn:Hlo;
      destruct (length text <=? 5000)%nat eqn:Hhi; simpl in Hv; try discriminate.
    injection Hv as <-. apply Nat.leb_le in Hlo. apply Nat.leb_le in Hhi.
    split; [reflexivity | lia]. }
  rewrite analyze_sentiment_eq. cbv zeta. rewrite Htext.
  destruct (get_analyzer settings pipeline w) as [r w1] eqn:Hget.
  destruct (consistent_get_analyzer _ _ _ Hw Hget) as (Hw1 & Hsome & _).
  assert (forall a, _analyzer w = Some a -> _analyzer w1 = Some a) as Hkeep.
  { intros a Ha. rewrite (get_analyzer_cached settings pipeline _ a) in Hget
      by exact Ha. injection Hget as _ <-. exact Ha. }
  destruct r as [e|[a|]]; simpl.
  - split; [apply consistent_failed; exact Hw1 | exact Hkeep].
  - destruct (analyze to_upper_full clock a text w1) as [r2 w2] eqn:Han.
    destruct (consistent_analyze _ _ _ _ _ Hw1 (Hsome a eq_refl) Hlen Han)
      as [Hw2 Hc2].
    assert (forall b, _analyzer w = Some b -> _analyzer w2 = Some b) as Hkeep2.
    { intros b Hb. rewrite Hc2. rewrite <- (Hsome a eq_refl). apply Hkeep, Hb. }
    destruct r2 as [e|res]; simpl.
    + split; [apply consistent_failed; exact Hw2 | exact Hkeep2].
    + destruct (AnalyzeResponse.validate _) as [errs|r] eqn:Hr; simpl.
      * split; [|exact Hkeep2].
        apply (consistent_failed (set_utc_reads (S (utc_reads w2)) w2)).
        destruct Hw2. split; assumption.
      * apply AnalyzeResponse_validate_inv in Hr as (-> & Hs & _).
        split; [|exact Hkeep2].
        apply consistent_succeeded; [exact Hw2 | exact Hs].
  - split; [apply consistent_failed; exact Hw1 | exact Hkeep].
Qed.

Lemma reachable_consistent (w : world) :
  reachable to_upper_full settings pipeline clock utcnow validation_error_str w ->
  consistent settings w.
Proof.
  induction 1 as [|w Hw IH|r w Hw IH].
  - apply consistent_initial.
  - apply consistent_startup_event, IH.
  - destruct r; simpl.
    + apply consistent_GET_health, IH.
    + apply consistent_POST_analyze, IH.
Qed.

Abbreviation reachable :=
  (reachable to_upper_full settings pipeline clock utcnow validation_error_str).
Abbreviation serve :=
  (serve to_upper_full settings pipeline clock utcnow validation_error_str).
Abbreviation serve_all :=
  (serve_all to_upper_full settings pipeline clock utcnow validation_error_str).
Abbreviation POST_analyze :=
  (POST_analyze to_upper_full settings pipeline clock utcnow validation_error_str).

(** Whatever the startup hook and the requests of the two routes were,
    every text [analyze] was called on has 1 to 5000 characters, the
    classifier was called once per call of [analyze], on the same text and
    in the same order, and [time.time()] was read twice per call. *)
Theorem classifier_inputs_validated (w : world) :
  reachable w ->
  Forall (fun text => 1 <= length text <= 5000)%nat (analyze_calls w) /\
  map snd (model_calls w) = analyze_calls w /\
  clock_reads w = (2 * length (analyze_calls w))%nat.
Proof.
  intros Hw. destruct (reachable_consistent w Hw). auto.
Qed.

(** In every state of the process at most one analyzer has been built.
    While the cache is empty none has, and the classifier was never
    called; once it holds an analyzer, that one was built from the
    configured model name and every call of the classifier so far was made
    on it.  Each construction attempt called [pipeline] once. *)
Theorem one_analyzer_per_process (w : world) :
  reachable w ->
  (constructions w <= 1)%nat /\
  pipeline_calls w = next_oid w /\
  (_analyzer w = None -> constructions w = 0%nat /\ model_calls w = []) /\
  (forall a,
     _analyzer w = Some a ->
     constructions w = 1%nat /\
     model_version a = model_name settings /\
     Forall (fun c => fst c = oid a) (model_calls w)).
Proof.
  intros Hw. destruct (reachable_consistent w Hw) as [H1 _ _ _ _ _ H6 H7].
  destruct (_analyzer w) as [a|].
  - destruct H7 as (Hone & Hver & _ & Hcalls).
    split; [lia|]. split; [exact H6|]. split; [discriminate|].
    intros ? [= <-]. auto.
  - destruct H7 as (Hzero & Hnone).
    split; [lia|]. split; [exact H6|]. split; [|discriminate].
    intros _. split; [exact Hzero|].
    rewrite Hnone in H1. destruct (model_calls w); [reflexivity | discriminate].
Qed.

(** In every state of the process the successes and the errors counted
    for /analyze add up to the durations observed for it, the predictions
    counted under the three sentiments add up to the successes, and no
    prediction is counted under any other label. *)
Theorem metrics_balance (w : world) :
  reachable w ->
  (value (requests_total w) (py "/analyze", py "success") +
   value (requests_total w) (py "/analyze", py "error"))%nat =
    value (request_duration w) (py "/analyze") /\
  (value (predictions_total w) (py "positive") +
   value (predictions_total w) (py "negative") +
   value (predictions_total w) (py "neutral"))%nat =
    value (requests_total w) (py "/analyze", py "success") /\
  (forall k, k ∉ [py "positive"; py "negative"; py "neutral"] ->
             value (predictions_total w) k = 0%nat).
Proof.
  intros Hw. destruct (reachable_consistent w Hw). auto.
Qed.

Lemma serve_cached (r : request) (w : world) (a : SentimentAnalyzer) :
  _analyzer w = Some a ->
  _analyzer (snd (serve r w)) = Some a /\
  pipeline_calls (snd (serve r w)) = pipeline_calls w /\
  status (fst (serve r w)) <> 503%nat /\
  (r = health_request -> status (fst (serve r w)) = 200%nat).
Proof.
  intros Hc. destruct r as [|text]; simpl.
  - unfold GET_health. rewrite health_check_eq, (get_analyzer_cached _ _ _ a Hc).
    simpl. repeat split; [exact Hc | discriminate].
  - unfold_POST_analyze.
    destruct (AnalyzeRequest.validate text) as [errs|request]; simpl.
    { repeat split; [exact Hc | discriminate | discriminate]. }
    rewrite analyze_sentiment_eq, (get_analyzer_cached _ _ _ a Hc). cbv zeta.
    rewrite analyze_eq.
    destruct (model a _) as [e|[|p ps]]; simpl;
      try (repeat split; [exact Hc | discriminate | discriminate]).
    destruct (AnalyzeResponse.validate _); simpl;
      repeat split; try exact Hc; discriminate.
Qed.

(** Once the cache holds an analyzer, no run of requests replaces it or
    calls [pipeline] again, no answer of the run is 503, and every
    GET /health of the run is answered 200. *)
Theorem loaded_stays_loaded (rs : list request) (w : world) (a : SentimentAnalyzer) :
  _analyzer w = Some a ->
  _analyzer (snd (serve_all rs w)) = Some a /\
  pipeline_calls (snd (serve_all rs w)) = pipeline_calls w /\
  Forall2 (fun r resp =>
             status resp <> 503%nat /\
             (r = health_request -> status resp = 200%nat))
          rs (fst (serve_all rs w)).
Proof.
  revert w. induction rs as [|r rs IH]; intros w Hc; simpl.
  - repeat split; [exact Hc | constructor].
  - destruct (serve_cached r w a Hc) as (Hc1 & Hp1 & H503 & H200).
    destruct (serve r w) as [resp w1]. simpl in *.
    destruct (IH w1 Hc1) as (Hc2 & Hp2 & Hall).
    destruct (serve_all rs w1) as [resps w2]. simpl in *.
    split; [exact Hc2|]. split; [congruence|].
    constructor; [split; assumption | exact Hall].
Qed.

(** The startup hook on an empty cache.  If the load raises, the hook logs
    application_startup_failed with the message and raises the same
    exception, and the cache stays empty; if the load succeeds, the hook
    returns with the new analyzer cached, one construction more, and logs
    application_ready with the model name. *)
Theorem startup_fail_fast (w : world) :
  _analyzer w = None ->
  (forall e,
     pipeline (pipeline_calls w) = inl e ->
     exists w',
       startup_event settings pipeline w = (inl e, w') /\
       _analyzer w' = None /\
       last (log w') = Some (application_startup_failed (exn_str e))) /\
  (forall m,
     pipeline (pipeline_calls w) = inr m ->
     exists w',
       startup_event settings pipeline w = (inr tt, w') /\
       _analyzer w' = Some (new_analyzer settings m w) /\
       constructions w' = S (constructions w) /\
       last (log w') = Some (application_ready (model_name settings))).
Proof.
  intros Hc. split.
  - intros e He. rewrite startup_event_eq. cbv zeta. rewrite get_analyzer_eq. simpl.
    rewrite Hc, He. eexists. split; [reflexivity|]. simpl.
    split; [exact Hc | apply last_snoc].
  - intros m Hm. rewrite startup_event_eq. cbv zeta. rewrite get_analyzer_eq. simpl.
    rewrite Hc, Hm. eexists. split; [reflexivity|]. simpl.
    split; [reflexivity|]. split; [|apply last_snoc].
    unfold constructions. simpl.
    rewrite !List.filter_app, !length_app. simpl. lia.
Qed.

(** A valid POST /analyze that finds the cache empty while the load
    fails is answered 500 with the load's message, not 503: [analyze] and
    the classifier are not called, the cache stays empty, and the request
    is counted as an error of /analyze and in the duration histogram. *)
Theorem analyze_request_while_load_fails (text : pystr) (w : world) (e : exn) :
  (1 <= length text <= 5000)%nat ->
  _analyzer w = None ->
  pipeline (pipeline_calls w) = inl e ->
  exists w',
    POST_analyze text w =
      ({| status := 500;
          body := detail_json (py "Analysis failed: " ++ exn_str e) |}, w') /\
    _analyzer w' = None /\
    analyze_calls w' = analyze_calls w /\
    model_calls w' = model_calls w /\
    value (requests_total w') (py "/analyze", py "error") =
      S (value (requests_total w) (py "/analyze", py "error")) /\
    value (request_duration w') (py "/analyze") =
      S (value (request_duration w) (py "/analyze")).
Proof.
  intros Hlen Hc He. unfold_POST_analyze.
  rewrite (AnalyzeRequest_validate_ok text Hlen), analyze_sentiment_eq,
    get_analyzer_eq, Hc, He.
  simpl. eexists. split; [reflexivity|]. simpl.
  split; [exact Hc|]. split; [reflexivity|]. split; [reflexivity|].
  split; apply value_inc.
Qed.

(** The response model puts no bound on processing_time_ms: a 200 answer
    carries the difference of the two clock readings times 1000 as it
    is, also when the clock went back between them and the value is
    negative. *)
Theorem processing_time_unchecked (text : pystr) (w w1 : world)
    (a : SentimentAnalyzer) (p : prediction) (rest : list prediction) :
  (1 <= length text <= 5000)%nat ->
  get_analyzer settings pipeline w = (inr (Some a), w1) ->
  model a text = inr (p :: rest) ->
  in_unit_interval (score p) ->
  exists r w',
    POST_analyze text w = ({| status := 200; body := analyze_json r |}, w') /\
    AnalyzeResponse.processing_time_ms r =
      ((clock (S (clock_reads w)) - clock (clock_reads w)) * 1000)%Q /\
    (clock (S (clock_reads w)) < clock (clock_reads w) ->
     AnalyzeResponse.processing_time_ms r < 0)%Q.
Proof.
  intros Hlen Hget Hmodel Hscore.
  destruct (get_analyzer_frame _ _ _ _ _ Hget) as (_ & _ & _ & _ & _ & Hclock & _).
  unfold_POST_analyze.
  rewrite (AnalyzeRequest_validate_ok text Hlen), analyze_sentiment_eq, Hget.
  simpl. rewrite analyze_eq, Hmodel. simpl.
  rewrite AnalyzeResponse_validate_ok;
    [|apply map_label_literal | exact Hscore].
  eexists _, _. split; [reflexivity|]. simpl. unfold elapsed_ms. rewrite Hclock.
  split; [reflexivity|]. intros H. lra.
Qed.

(** When the classifier returns an empty list, [self.model(text)[0]]
    raises IndexError: [analyze] logs the failure with the elapsed time
    and raises, the route answers 500 with that message, and no
    prediction is counted. *)
Theorem empty_classification (text : pystr) (w w1 : world) (a : SentimentAnalyzer) :
  (1 <= length text <= 5000)%nat ->
  get_analyzer settings pipeline w = (inr (Some a), w1) ->
  model a text = inr [] ->
  exists w2 w',
    analyze to_upper_full clock a text w1 = (inl IndexError, w2) /\
    last (log w2) = Some (analysis_failed_after (elapsed_ms clock w1) IndexError) /\
    POST_analyze text w =
      ({| status := 500;
          body := detail_json (py "Analysis failed: list index out of range") |},
       w') /\
    value (predictions_total w') = value (predictions_total w).
Proof.
  intros Hlen Hget Hmodel.
  destruct (get_analyzer_frame _ _ _ _ _ Hget) as (_ & Hpred & _).
  eexists _, _. split; [rewrite analyze_eq, Hmodel; reflexivity|].
  split; [apply last_snoc|].
  unfold_POST_analyze.
  rewrite (AnalyzeRequest_validate_ok text Hlen), analyze_sentiment_eq, Hget.
  simpl. rewrite analyze_eq, Hmodel. simpl.
  split; [reflexivity|]. simpl. rewrite Hpred. reflexivity.
Qed.

(** GET /health never calls [analyze] or the classifier, reads no clock,
    leaves the prediction counters, the duration histogram and the
    request counters of the other endpoints alone, and counts exactly one
    request for /health, as a success or as an error. *)
Theorem health_check_frame (w : world) :
  let w' := snd (GET_health settings pipeline w) in
  analyze_calls w' = analyze_calls w /\
  model_calls w' = model_calls w /\
  clock_reads w' = clock_reads w /\
  utc_reads w' = utc_reads w /\
  predictions_total w' = predictions_total w /\
  request_duration w' = request_duration w /\
  (forall endpoint outcome,
     endpoint <> py "/health" ->
     value (requests_total w') (endpoint, outcome) =
       value (requests_total w) (endpoint, outcome)) /\
  (value (requests_total w') (py "/health", py "success") +
   value (requests_total w') (py "/health", py "error"))%nat =
    S (value (requests_total w) (py "/health", py "success") +
       value (requests_total w) (py "/health", py "error")).
Proof.
  cbv zeta. unfold GET_health. rewrite health_check_eq.
  destruct (get_analyzer settings pipeline w) as [r w1] eqn:Hget.
  destruct (get_analyzer_frame _ _ _ _ _ Hget)
    as (Hreq & Hpred & Hdur & Hcalls & Hmodel & Hclock & Hutc).
  destruct r as [e|r]; simpl; rewrite Hreq;
    (repeat split; try assumption;
     [intros endpoint outcome Hne; apply value_inc_ne; congruence|]).
  - rewrite value_inc, value_inc_ne by discriminate. lia.
  - rewrite value_inc, value_inc_ne by discriminate. lia.
Qed.

(** In every state of the process, a 200 answer of POST /analyze echoes
    the text of the request, which has 1 to 5000 characters, and reports
    the configured model name as model_version, the configured cost, and
    the reading of [datetime.utcnow()] of this request as timestamp. *)
Theorem response_reports_the_process (text : pystr) (w : world) :
  reachable w ->
  status (fst (POST_analyze text w)) = 200%nat ->
  exists r,
    body (fst (POST_analyze text w)) = analyze_json r /\
    AnalyzeResponse.text r = text /\
    (1 <= length (AnalyzeResponse.text r) <= 5000)%nat /\
    AnalyzeResponse.model_version r = model_name settings /\
    AnalyzeResponse.cost_estimate_usd r = cost_per_inference_usd settings /\
    AnalyzeResponse.timestamp r = utcnow (utc_reads w).
Proof.
  intros Hw. pose proof (reachable_consistent w Hw) as Hcons.
  unfold_POST_analyze.
  destruct (AnalyzeRequest.validate text) as [errs|request] eqn:Hv;
    [discriminate|].
  assert (AnalyzeRequest.text request = text /\ (1 <= length text <= 5000)%nat)
    as [Htext Hlen].
  { unfold AnalyzeRequest.validate, AnalyzeRequest.errors, check,
      AnalyzeRequest.min_length, AnalyzeRequest.max_length in Hv.
    destruct (1 <=? length text)%nat eqn:Hlo;
      destruct (length text <=? 5000)%nat eqn:Hhi; simpl in Hv; try discriminate.
    injection Hv as <-. apply Nat.leb_le in Hlo. apply Nat.leb_le in Hhi.
    split; [reflexivity | lia]. }
  rewrite analyze_sentiment_eq. cbv zeta. rewrite Htext.
  destruct (get_analyzer settings pipeline w) as [[e|[a|]] w1] eqn:Hget;
    simpl; try discriminate.
  destruct (consistent_get_analyzer _ _ _ Hcons Hget) as (Hw1 & Hsome & _).
  pose proof (Hsome a eq_refl) as Hc1.
  destruct Hw1 as [_ _ _ _ _ _ _ H7]. rewrite Hc1 in H7.
  destruct H7 as (_ & Hver & _).
  destruct (get_analyzer_frame _ _ _ _ _ Hget) as (_ & _ & _ & _ & _ & _ & Hutc).
  rewrite analyze_eq.
  destruct (model a text) as [e|[|p ps]]; simpl; try discriminate.
  destruct (AnalyzeResponse.validate _) as [errs|r] eqn:Hr; simpl;
    [discriminate|].
  intros _. apply AnalyzeResponse_validate_inv in Hr as (-> & _).
  eexists. split; [reflexivity|]. simpl. rewrite Hutc. auto.
Qed.


(** The three canonical sentiments are fixed points of the label mapping,
    so mapping a label twice gives what mapping it once gives. *)
Theorem map_label_idempotent (raw : pystr) :
  map_label to_upper_full (map_label to_upper_full raw) =
    map_label to_upper_full raw.
Proof.
  pose proof (map_label_literal to_upper_full raw) as H.
  unfold AnalyzeResponse.sentiment_literal in H.
  rewrite !elem_of_cons, elem_of_nil in H.
  destruct H as [-> | [-> | [-> | []]]]; vm_compute; reflexivity.
Qed.

Lemma SentimentAnalyzer_init_effects (w : world) :
  _analyzer (snd (SentimentAnalyzer_init settings pipeline w)) = _analyzer w /\
  pipeline_calls (snd (SentimentAnalyzer_init settings pipeline w)) =
    S (pipeline_calls w) /\
  (constructions (snd (SentimentAnalyzer_init settings pipeline w)) <=
     S (constructions w))%nat.
Proof.
  unfold SentimentAnalyzer_init, try_except, call_pipeline, bind, gets,
    logger, modify, ret, raise. simpl.
  destruct (pipeline (pipeline_calls w)) as [e|m]; simpl;
    (split; [reflexivity|]; split; [reflexivity|]);
    unfold constructions; simpl;
    rewrite !List.filter_app, !length_app; simpl; lia.
Qed.

Lemma caller_step_effects (c : caller) (w : world) :
  holds_instance w c ->
  (_analyzer w <> None ->
   _analyzer (snd (caller_step settings pipeline c w)) <> None) /\
  holds_instance (snd (caller_step settings pipeline c w))
    (fst (caller_step settings pipeline c w)) /\
  (constructions (snd (caller_step settings pipeline c w)) +
     pending (fst (caller_step settings pipeline c w)) <=
   constructions w + pending c)%nat /\
  (pipeline_calls (snd (caller_step settings pipeline c w)) +
     pending (fst (caller_step settings pipeline c w)) <=
   pipeline_calls w + pending c)%nat.
Proof.
  intros Hc. destruct c as [| |a| |r|e]; simpl in *.
  - destruct (_analyzer w) as [a|] eqn:Ha; simpl.
    + rewrite Ha. split; [auto|]. split; [discriminate|]. lia.
    + split; [contradiction|]. split; [exact I|]. split; [|lia].
      unfold constructions. simpl.
      rewrite List.filter_app, length_app. simpl. lia.
  - destruct (SentimentAnalyzer_init_effects w) as (Ha & Hp & Hn).
    destruct (SentimentAnalyzer_init settings pipeline w) as [[e|a] w'];
      simpl in *; rewrite Ha; (split; [auto|]; split; [exact I|]; lia).
  - split; [discriminate|]. split; [discriminate|].
    unfold constructions. simpl. lia.
  - split; [auto|]. split; [exact Hc|]. lia.
  - split; [auto|]. split; [exact Hc|]. lia.
  - split; [auto|]. split; [exact I|]. lia.
Qed.

Lemma holds_instance_mono (w w' : world) (c : caller) :
  (_analyzer w <> None -> _analyzer w' <> None) ->
  holds_instance w c -> holds_instance w' c.
Proof. destruct c; simpl; auto. Qed.

Lemma step_effects (i : nat) (cs : list caller) (w : world) :
  Forall (holds_instance w) cs ->
  Forall (holds_instance (snd (step settings pipeline i (cs, w))))
         (fst (step settings pipeline i (cs, w))) /\
  length (fst (step settings pipeline i (cs, w))) = length cs /\
  (constructions (snd (step settings pipeline i (cs, w))) +
     pendings (fst (step settings pipeline i (cs, w))) <=
   constructions w + pendings cs)%nat /\
  (pipeline_calls (snd (step settings pipeline i (cs, w))) +
     pendings (fst (step settings pipeline i (cs, w))) <=
   pipeline_calls w + pendings cs)%nat.
Proof.
  intros Hcs. unfold step. simpl.
  destruct (cs !! i) as [c|] eqn:Hi; [|simpl; auto with lia].
  pose proof (Forall_lookup_1 _ _ _ _ Hcs Hi) as Hc.
  destruct (caller_step_effects c w Hc) as (Hkeep & Hc' & Hn & Hp).
  destruct (caller_step settings pipeline c w) as [c' w']. simpl in *.
  split; [|split].
  - apply Forall_insert; [|exact Hc'].
    eapply Forall_impl; [exact Hcs|]. intros x. apply holds_instance_mono, Hkeep.
  - apply length_insert.
  - assert (pendings (<[i:=c']> cs) + pending c = pendings cs + pending c')%nat
      as Hsum.
    { unfold pendings.
      rewrite insert_take_drop by (eapply lookup_lt_Some; exact Hi).
      rewrite <- (take_drop_middle cs i c Hi) at 3.
      rewrite !sum_list_with_app. simpl. lia. }
    lia.
Qed.

(** Callers of [get_analyzer()] that overlap in any way: a caller that
    returns never returns [None], and [n] callers complete at most [n]
    constructions and make at most [n] calls of [pipeline]. *)
Theorem overlapping_callers_bounds (schedule : list nat) (n : nat) (w : world) :
  let cfg := run settings pipeline schedule (replicate n at_test, w) in
  length (fst cfg) = n /\
  (forall i r, fst cfg !! i = Some (returned r) -> r <> None) /\
  (constructions (snd cfg) <= constructions w + n)%nat /\
  (pipeline_calls (snd cfg) <= pipeline_calls w + n)%nat.
Proof.
  cbv zeta.
  assert (forall cs w0,
            Forall (holds_instance w0) cs ->
            let cfg := run settings pipeline schedule (cs, w0) in
            Forall (holds_instance (snd cfg)) (fst cfg) /\
            length (fst cfg) = length cs /\
            (constructions (snd cfg) + pendings (fst cfg) <=
               constructions w0 + pendings cs)%nat /\
            (pipeline_calls (snd cfg) + pendings (fst cfg) <=
               pipeline_calls w0 + pendings cs)%nat) as Hrun.
  { induction schedule as [|i schedule IH]; intros cs w0 Hcs; cbv zeta.
    - simpl. auto with lia.
    - change (run settings pipeline (i :: schedule) (cs, w0))
        with (run settings pipeline schedule (step settings pipeline i (cs, w0))).
      destruct (step_effects i cs w0 Hcs) as (Hcs1 & Hlen1 & Hn1 & Hp1).
      destruct (step settings pipeline i (cs, w0)) as [cs1 w1]. simpl in *.
      destruct (IH cs1 w1 Hcs1) as (Hcs2 & Hlen2 & Hn2 & Hp2).
      split; [exact Hcs2|]. split; [congruence|]. lia. }
  destruct (Hrun (replicate n at_test) w) as (Hcs & Hlen & Hn & Hp).
  { apply Forall_replicate. exact I. }
  assert (pendings (replicate n at_test) = n) as Hpend.
  { unfold pendings. clear. induction n as [|n IH]; simpl; [|rewrite IH]; reflexivity. }
  rewrite Hpend in Hn, Hp. rewrite length_replicate in Hlen.
  split; [exact Hlen|]. split; [|lia].
  intros i r Hi. exact (Forall_lookup_1 _ _ _ _ Hcs Hi).
Qed.

(** A load that fails is not cached: the call raises the load's
    exception after logging it and leaves the cache empty, and the next
    call loads again; if that load succeeds it returns and caches a new
    analyzer, a fresh object. *)
Theorem failed_load_is_retried (w : world) (e : exn) :
  _analyzer w = None ->
  pipeline (pipeline_calls w) = inl e ->
  exists w1,
    get_analyzer settings pipeline w = (inl e, w1) /\
    _analyzer w1 = None /\
    pipeline_calls w1 = S (pipeline_calls w) /\
    last (log w1) = Some (failed_to_load_model e) /\
    forall m,
      pipeline (S (pipeline_calls w)) = inr m ->
      exists a w2,
        get_analyzer settings pipeline w1 = (inr (Some a), w2) /\
        model a = m /\ oid a = S (next_oid w) /\
        _analyzer w2 = Some a /\
        pipeline_calls w2 = S (S (pipeline_calls w)).
Proof.
  intros Hc He. rewrite get_analyzer_eq, Hc, He.
  eexists. split; [reflexivity|]. simpl.
  split; [exact Hc|]. split; [reflexivity|]. split; [apply last_snoc|].
  intros m Hm. rewrite get_analyzer_eq. simpl. rewrite Hc, Hm.
  eexists _, _. split; [reflexivity|]. simpl. auto.
Qed.



End Lifetime.

(** ** The process at concrete inputs *)

Lemma served_world_reachable :
  reachable stub_upper default_settings stub_pipeline stub_clock stub_utcnow
    stub_validation_error_str served_world.
Proof. apply after_request, after_request, after_import. Qed.

Lemma classifier_inputs_validated_witness :
  Forall (fun text => 1 <= length text <= 5000)%nat (analyze_calls served_world) /\
  map snd (model_calls served_world) = analyze_calls served_world.
Proof.
  destruct (classifier_inputs_validated stub_upper default_settings stub_pipeline
              stub_clock stub_utcnow stub_validation_error_str served_world)
    as (Hbounds & Hsame & _).
  - apply after_request, after_request, after_import.
  - split; [exact Hbounds | exact Hsame].
Defined.

Lemma one_analyzer_per_process_witness :
  (constructions served_world <= 1)%nat.
Proof.
  destruct (one_analyzer_per_process stub_upper default_settings stub_pipeline
              stub_clock stub_utcnow stub_validation_error_str served_world)
    as (Hone & _).
  - apply after_request, after_request, after_import.
  - exact Hone.
Defined.

Lemma metrics_balance_witness :
  (value (predictions_total served_world) (py "positive") +
   value (predictions_total served_world) (py "negative") +
   value (predictions_total served_world) (py "neutral"))%nat =
    value (requests_total served_world) (py "/analyze", py "success").
Proof.
  destruct (metrics_balance stub_upper default_settings stub_pipeline
              stub_clock stub_utcnow stub_validation_error_str served_world)
    as (_ & Hpred & _).
  - apply after_request, after_request, after_import.
  - exact Hpred.
Defined.

Lemma loaded_stays_loaded_witness :
  pipeline_calls
    (snd (stub_serve_all
            [health_request; analyze_request (py "!bad"); health_request]
            (loaded default_settings stub_model initial_world))) = 1%nat.
Proof.
  destruct (loaded_stays_loaded stub_upper default_settings stub_pipeline
              stub_clock stub_utcnow stub_validation_error_str
              [health_request; analyze_request (py "!bad"); health_request]
              (loaded default_settings stub_model initial_world) stub_analyzer)
    as (_ & Hcalls & _).
  - reflexivity.
  - exact Hcalls.
Defined.

Lemma startup_fail_fast_witness :
  (exists w',
     startup_event default_settings no_pipeline initial_world =
       (inl (RuntimeError "model not found"), w') /\ _analyzer w' = None) /\
  (exists w',
     startup_event default_settings stub_pipeline initial_world = (inr tt, w') /\
     _analyzer w' = Some stub_analyzer).
Proof.
  split.
  - destruct (startup_fail_fast default_settings no_pipeline initial_world)
      as [Hfail _]; [reflexivity|].
    destruct (Hfail (RuntimeError "model not found")) as (w' & Hrun & Hc & _);
      [reflexivity|].
    exists w'. split; [exact Hrun | exact Hc].
  - destruct (startup_fail_fast default_settings stub_pipeline initial_world)
      as [_ Hok]; [reflexivity|].
    destruct (Hok stub_model) as (w' & Hrun & Hc & _); [reflexivity|].
    exists w'. split; [exact Hrun | exact Hc].
Defined.

Lemma analyze_request_while_load_fails_witness :
  exists w',
    POST_analyze stub_upper default_settings no_pipeline stub_clock stub_utcnow
      stub_validation_error_str (py "I love it") initial_world =
      ({| status := 500;
          body := detail_json (py "Analysis failed: model not found") |}, w') /\
    analyze_calls w' = [].
Proof.
  destruct (analyze_request_while_load_fails stub_upper default_settings
              no_pipeline stub_clock stub_utcnow stub_validation_error_str
              (py "I love it") initial_world (RuntimeError "model not found"))
    as (w' & Hpost & _ & Hcalls & _).
  - simpl. lia.
  - reflexivity.
  - reflexivity.
  - exists w'. split; [exact Hpost | exact Hcalls].
Defined.

Lemma processing_time_unchecked_witness :
  exists r w',
    POST_analyze stub_upper default_settings stub_pipeline backwards_clock
      stub_utcnow stub_validation_error_str (py "I love it") initial_world =
      ({| status := 200; body := analyze_json r |}, w') /\
    (AnalyzeResponse.processing_time_ms r < 0)%Q.
Proof.
  edestruct (processing_time_unchecked stub_upper default_settings stub_pipeline
               backwards_clock stub_utcnow stub_validation_error_str
               (py "I love it") initial_world)
    as (r & w' & Hpost & _ & Hneg).
  - simpl. lia.
  - reflexivity.
  - reflexivity.
  - split; simpl; discriminate.
  - exists r, w'. split; [exact Hpost|]. apply Hneg. reflexivity.
Defined.

Lemma empty_classification_witness :
  exists w',
    POST_analyze stub_upper default_settings mute_pipeline stub_clock stub_utcnow
      stub_validation_error_str (py "I love it") initial_world =
      ({| status := 500;
          body := detail_json (py "Analysis failed: list index out of range") |},
       w').
Proof.
  edestruct (empty_classification stub_upper default_settings mute_pipeline
               stub_clock stub_utcnow stub_validation_error_str
               (py "I love it") initial_world)
    as (w2 & w' & _ & _ & Hpost & _).
  - simpl. lia.
  - reflexivity.
  - reflexivity.
  - exists w'. exact Hpost.
Defined.

Lemma response_reports_the_process_witness :
  exists r,
    body (fst (stub_serve (analyze_request (py "-bad")) served_world)) =
      analyze_json r /\
    AnalyzeResponse.model_version r =
      py "distilbert-base-uncased-finetuned-sst-2-english".
Proof.
  destruct (response_reports_the_process stub_upper default_settings
              stub_pipeline stub_clock stub_utcnow stub_validation_error_str
              (py "-bad") served_world)
    as (r & Hbody & _ & _ & Hversion & _).
  - apply after_request, after_request, after_import.
  - vm_compute. reflexivity.
  - exists r. split; [exact Hbody | exact Hversion].
Defined.

Lemma overlapping_callers_bounds_witness :
  (constructions
     (snd (run default_settings stub_pipeline [0; 1; 0; 1; 0; 0; 1; 1]%nat
             (replicate 2 at_test, initial_world))) <= 2)%nat.
Proof.
  pose proof (overlapping_callers_bounds default_settings stub_pipeline
                [0; 1; 0; 1; 0; 0; 1; 1]%nat 2 initial_world) as H.
  cbv zeta in H. destruct H as (_ & _ & Hn & _). exact Hn.
Defined.

Lemma failed_load_is_retried_witness :
  exists w1,
    get_analyzer default_settings flaky_pipeline initial_world =
      (inl (RuntimeError "connection reset"), w1) /\
    exists a w2,
      get_analyzer default_settings flaky_pipeline w1 = (inr (Some a), w2) /\
      oid a = 1%nat.
Proof.
  destruct (failed_load_is_retried default_settings flaky_pipeline initial_world
              (RuntimeError "connection reset"))
    as (w1 & Hfirst & _ & _ & _ & Hnext).
  - reflexivity.
  - reflexivity.
  - exists w1. split; [exact Hfirst|].
    destruct (Hnext stub_model) as (a & w2 & Hsecond & _ & Hoid & _);
      [reflexivity|].
    exists a, w2. split; [exact Hsecond | exact Hoid].
Defined.

Lemma health_check_frame_witness :
  value (requests_total (snd (GET_health default_settings stub_pipeline initial_world)))
    (py "/analyze", py "error") = 0%nat.
Proof.
  pose proof (health_check_frame default_settings stub_pipeline initial_world) as H.
  cbv zeta in H. destruct H as (_ & _ & _ & _ & _ & _ & Hother & _).
  rewrite Hother; [reflexivity | discriminate].
Defined.
